(** * The TLS 1.3 handshake controller and record layer of [tls1_3.c]

    A shallow embedding of
    [openssl-ddd-architecture/src/application/ssl/tls1_3.c]: the context
    structure, the key derivation, the four handshake handlers, the
    dispatcher, the record encryption and decryption loops, and the
    cleanup.  The block cipher of [domain/crypto/aes.h] is only declared in
    the repository, so it enters as an interface ([AesProvider]). *)

From Stdlib Require Import String Ascii.
From Stdlib Require Import ZArith List Lia Bool Permutation.
Import ListNotations.

Local Open Scope Z_scope.

(** ** Enumerations of [tls1_3.h] and [aes.h] *)

Inductive tls_handshake_state_t : Type :=
| TLS_STATE_CLIENT_HELLO
| TLS_STATE_SERVER_HELLO
| TLS_STATE_CHANGE_CIPHER_SPEC
| TLS_STATE_FINISHED
| TLS_STATE_APPLICATION_DATA
| TLS_STATE_ERROR.

Inductive tls_result_t : Type :=
| TLS_SUCCESS
| TLS_ERROR_INVALID_PARAM
| TLS_ERROR_INVALID_STATE
| TLS_ERROR_INVALID_MESSAGE
| TLS_ERROR_INVALID_BLOCK_SIZE
| TLS_ERROR_MEMORY_ALLOCATION
| TLS_ERROR_CRYPTO_FAILURE
| TLS_ERROR_UNSUPPORTED_MESSAGE.

Inductive aes_key_size_t : Type := AES_KEY_128 | AES_KEY_192 | AES_KEY_256.

Inductive aes_result_t : Type :=
| AES_SUCCESS
| AES_ERROR_INVALID_PARAM
| AES_ERROR_INVALID_KEY_SIZE
| AES_ERROR_INVALID_BLOCK_SIZE
| AES_ERROR_MEMORY_ALLOCATION.

(** The numeric value of each state, as the C enumeration assigns it. *)
Definition state_code (s : tls_handshake_state_t) : Z :=
  match s with
  | TLS_STATE_CLIENT_HELLO => 0
  | TLS_STATE_SERVER_HELLO => 1
  | TLS_STATE_CHANGE_CIPHER_SPEC => 2
  | TLS_STATE_FINISHED => 3
  | TLS_STATE_APPLICATION_DATA => 4
  | TLS_STATE_ERROR => 5
  end.

Definition state_eqb (s t : tls_handshake_state_t) : bool :=
  state_code s =? state_code t.

(** [result == AES_SUCCESS] and [result == TLS_SUCCESS] *)
Definition aes_succeeded (r : aes_result_t) : bool :=
  match r with AES_SUCCESS => true | _ => false end.

Definition tls_succeeded (r : tls_result_t) : bool :=
  match r with TLS_SUCCESS => true | _ => false end.

(** ** Handshake message types ([tls_handshake_msg_type_t]) *)

Definition TLS_MSG_CLIENT_HELLO : Z := 1.
Definition TLS_MSG_SERVER_HELLO : Z := 2.
Definition TLS_MSG_CHANGE_CIPHER_SPEC : Z := 20.
Definition TLS_MSG_FINISHED : Z := 20.




(** ** Bytes and buffers

    A [uint8_t] is a [Z] in [0, 256); a buffer handed over as pointer plus
    length is the list of its bytes, the length being [length]. *)

Definition bytes := list Z.

Definition zeros (n : nat) : bytes := repeat 0 n.

(** A C string literal as an array: the characters and the closing NUL,
    so that [length] is [sizeof]. *)
Definition c_string (s : string) : bytes :=
  map (fun ch => Z.of_nat (nat_of_ascii ch)) (list_ascii_of_string s) ++ [0].

(** [for (int i = 0; i < n; i++) a[i] = f i;] on an array the body does
    not read. *)
Definition tabulate (n : nat) (f : nat -> Z) : bytes := map f (seq 0 n).

(** [memcpy(dst, data + off, n)]: the [n] bytes at offset [off], when the
    buffer holds them.  Reading past the end of the buffer has no defined
    result in C; the model answers [None] there. *)
Definition memcpy_from (data : bytes) (off n : nat) : option bytes :=
  if (off + n <=? length data)%nat
  then Some (firstn n (skipn off data))
  else None.

(** The 16-byte block at [buf + i * 16]. *)
Definition block_at (buf : bytes) (i : nat) : bytes :=
  firstn 16 (skipn (i * 16) buf).

(** A handshake message: type byte, 24-bit big-endian length, payload. *)
Definition handshake_message (msg_type : Z) (payload : bytes) : bytes :=
  let n := Z.of_nat (length payload) in
  msg_type :: Z.land (Z.shiftr n 16) 255 :: Z.land (Z.shiftr n 8) 255
           :: Z.land n 255 :: payload.


(** ** The block cipher interface ([aes.h])

    [aes_context_t] is the content of an AES context object.  Each call
    receives the object and a block and answers with a result code, the
    object after the call and the 16 bytes of [output].
    [aes_on_null_context] is the provider's answer when it is handed a NULL
    context. *)

Class AesProvider : Type := {
  aes_context_t : Type;
  aes_init : aes_context_t -> bytes -> aes_key_size_t -> aes_result_t * aes_context_t;
  aes_encrypt_block : aes_context_t -> bytes -> aes_result_t * aes_context_t * bytes;
  aes_decrypt_block : aes_context_t -> bytes -> aes_result_t * aes_context_t * bytes;
  aes_on_null_context : aes_result_t;
  aes_encrypt_block_output : forall a b, length (snd (aes_encrypt_block a b)) = 16%nat;
  aes_decrypt_block_output : forall a b, length (snd (aes_decrypt_block a b)) = 16%nat
}.

Section Tls13.

Context {provider : AesProvider}.

(** Calls through the pointer [ctx->aes_ctx], [None] being NULL. *)
Definition aes_init_at (p : option aes_context_t) (key : bytes) (ks : aes_key_size_t)
  : aes_result_t * option aes_context_t :=
  match p with
  | Some a => let '(r, a') := aes_init a key ks in (r, Some a')
  | None => (aes_on_null_context, None)
  end.

Definition aes_encrypt_block_at (p : option aes_context_t) (input : bytes)
  : aes_result_t * option aes_context_t * bytes :=
  match p with
  | Some a => let '(r, a', o) := aes_encrypt_block a input in (r, Some a', o)
  | None => (aes_on_null_context, None, [])
  end.

Definition aes_decrypt_block_at (p : option aes_context_t) (input : bytes)
  : aes_result_t * option aes_context_t * bytes :=
  match p with
  | Some a => let '(r, a', o) := aes_decrypt_block a input in (r, Some a', o)
  | None => (aes_on_null_context, None, [])
  end.

(** ** The context structure ([tls1_3_context_t])

    The three handles other than [aes_ctx] carry no state the code reads:
    they are [true] when the pointer is not NULL. *)

Record tls1_3_context_t : Type := {
  state : tls_handshake_state_t;
  client_random : bytes;
  server_random : bytes;
  master_secret : bytes;
  client_write_key : bytes;
  server_write_key : bytes;
  client_write_iv : bytes;
  server_write_iv : bytes;
  aes_ctx : option aes_context_t;
  sha256_ctx : bool;
  rsa_ctx : bool;
  ec_ctx : bool;
  sequence_number : Z;
  handshake_hash : bytes
}.

Definition set_state (c : tls1_3_context_t) (s : tls_handshake_state_t) :=
  {| state := s;
     client_random := client_random c; server_random := server_random c;
     master_secret := master_secret c;
     client_write_key := client_write_key c; server_write_key := server_write_key c;
     client_write_iv := client_write_iv c; server_write_iv := server_write_iv c;
     aes_ctx := aes_ctx c; sha256_ctx := sha256_ctx c; rsa_ctx := rsa_ctx c;
     ec_ctx := ec_ctx c;
     sequence_number := sequence_number c; handshake_hash := handshake_hash c |}.

Definition set_client_random (c : tls1_3_context_t) (r : bytes) :=
  {| state := state c;
     client_random := r; server_random := server_random c;
     master_secret := master_secret c;
     client_write_key := client_write_key c; server_write_key := server_write_key c;
     client_write_iv := client_write_iv c; server_write_iv := server_write_iv c;
     aes_ctx := aes_ctx c; sha256_ctx := sha256_ctx c; rsa_ctx := rsa_ctx c;
     ec_ctx := ec_ctx c;
     sequence_number := sequence_number c; handshake_hash := handshake_hash c |}.

Definition set_server_random (c : tls1_3_context_t) (r : bytes) :=
  {| state := state c;
     client_random := client_random c; server_random := r;
     master_secret := master_secret c;
     client_write_key := client_write_key c; server_write_key := server_write_key c;
     client_write_iv := client_write_iv c; server_write_iv := server_write_iv c;
     aes_ctx := aes_ctx c; sha256_ctx := sha256_ctx c; rsa_ctx := rsa_ctx c;
     ec_ctx := ec_ctx c;
     sequence_number := sequence_number c; handshake_hash := handshake_hash c |}.

Definition set_master_secret (c : tls1_3_context_t) (m : bytes) :=
  {| state := state c;
     client_random := client_random c; server_random := server_random c;
     master_secret := m;
     client_write_key := client_write_key c; server_write_key := server_write_key c;
     client_write_iv := client_write_iv c; server_write_iv := server_write_iv c;
     aes_ctx := aes_ctx c; sha256_ctx := sha256_ctx c; rsa_ctx := rsa_ctx c;
     ec_ctx := ec_ctx c;
     sequence_number := sequence_number c; handshake_hash := handshake_hash c |}.

Definition set_traffic_keys (c : tls1_3_context_t) (ck sk civ siv : bytes) :=
  {| state := state c;
     client_random := client_random c; server_random := server_random c;
     master_secret := master_secret c;
     client_write_key := ck; server_write_key := sk;
     client_write_iv := civ; server_write_iv := siv;
     aes_ctx := aes_ctx c; sha256_ctx := sha256_ctx c; rsa_ctx := rsa_ctx c;
     ec_ctx := ec_ctx c;
     sequence_number := sequence_number c; handshake_hash := handshake_hash c |}.

Definition set_aes_ctx (c : tls1_3_context_t) (p : option aes_context_t) :=
  {| state := state c;
     client_random := client_random c; server_random := server_random c;
     master_secret := master_secret c;
     client_write_key := client_write_key c; server_write_key := server_write_key c;
     client_write_iv := client_write_iv c; server_write_iv := server_write_iv c;
     aes_ctx := p; sha256_ctx := sha256_ctx c; rsa_ctx := rsa_ctx c;
     ec_ctx := ec_ctx c;
     sequence_number := sequence_number c; handshake_hash := handshake_hash c |}.

Definition set_handles (c : tls1_3_context_t) (sha rsa ec : bool) :=
  {| state := state c;
     client_random := client_random c; server_random := server_random c;
     master_secret := master_secret c;
     client_write_key := client_write_key c; server_write_key := server_write_key c;
     client_write_iv := client_write_iv c; server_write_iv := server_write_iv c;
     aes_ctx := aes_ctx c; sha256_ctx := sha; rsa_ctx := rsa; ec_ctx := ec;
     sequence_number := sequence_number c; handshake_hash := handshake_hash c |}.

Definition set_sequence_number (c : tls1_3_context_t) (n : Z) :=
  {| state := state c;
     client_random := client_random c; server_random := server_random c;
     master_secret := master_secret c;
     client_write_key := client_write_key c; server_write_key := server_write_key c;
     client_write_iv := client_write_iv c; server_write_iv := server_write_iv c;
     aes_ctx := aes_ctx c; sha256_ctx := sha256_ctx c; rsa_ctx := rsa_ctx c;
     ec_ctx := ec_ctx c;
     sequence_number := n; handshake_hash := handshake_hash c |}.

(** [memset(ctx, 0, sizeof(tls1_3_context_t))]: every array zero, every
    pointer NULL, the counter 0 and the state the enumerator of value 0. *)
Definition zeroed_context : tls1_3_context_t :=
  {| state := TLS_STATE_CLIENT_HELLO;
     client_random := zeros 32; server_random := zeros 32;
     master_secret := zeros 48;
     client_write_key := zeros 32; server_write_key := zeros 32;
     client_write_iv := zeros 12; server_write_iv := zeros 12;
     aes_ctx := None; sha256_ctx := false; rsa_ctx := false; ec_ctx := false;
     sequence_number := 0; handshake_hash := zeros 32 |}.

(** ** The demonstration random generators

    [tls_generate_client_random] and [tls_generate_server_random]: each
    fills its field with an arithmetic sequence, cast to [uint8_t]. *)

Definition tls_generate_client_random (c : tls1_3_context_t)
  : tls_result_t * tls1_3_context_t :=
  (TLS_SUCCESS,
   set_client_random c (tabulate 32 (fun i => (Z.of_nat i * 7 + 13) mod 256))).

Definition tls_generate_server_random (c : tls1_3_context_t)
  : tls_result_t * tls1_3_context_t :=
  (TLS_SUCCESS,
   set_server_random c (tabulate 32 (fun i => (Z.of_nat i * 11 + 17) mod 256))).

(** ** Key derivation *)

(** [tls_derive_master_secret].  It has no failing path, but its loop
    computes [i % shared_secret_len]: with an empty secret the first
    iteration divides by zero and the call does not return, which is
    [None]. *)
Definition tls_derive_master_secret (c : tls1_3_context_t) (shared_secret : bytes)
  : option (tls_result_t * tls1_3_context_t) :=
  let salt := c_string "TLS 1.3, server to client" in
  let info := c_string "tls13 derived" in
  let shared_secret_len := length shared_secret in
  if (shared_secret_len =? 0)%nat then None
  else
    Some (TLS_SUCCESS,
          set_master_secret c
            (tabulate 48 (fun i =>
               Z.land (nth (i mod length salt) salt 0
                       + nth (i mod shared_secret_len) shared_secret 0
                       + nth (i mod length info) info 0) 255))).

(** [tls_derive_traffic_keys]; it has no failing path either. *)
Definition tls_derive_traffic_keys (c : tls1_3_context_t)
  : tls_result_t * tls1_3_context_t :=
  let ms (i : nat) := nth (i mod 48) (master_secret c) 0 in
  (TLS_SUCCESS,
   set_traffic_keys c
     (tabulate 32 (fun i => Z.land (ms i + Z.of_nat i) 255))
     (tabulate 32 (fun i => Z.land (ms i + Z.of_nat i + 128) 255))
     (tabulate 12 (fun i => Z.land (ms i + Z.of_nat i + 64) 255))
     (tabulate 12 (fun i => Z.land (ms i + Z.of_nat i + 192) 255))).

(** ** Handshake handlers

    The functions are embedded for valid pointers: a NULL [ctx], [data] or
    buffer argument is answered with [TLS_ERROR_INVALID_PARAM] (and
    [tls1_3_get_state] with [TLS_STATE_ERROR]) before anything is read.

    A handler either returns a result code with the context as it left it,
    or reads past the end of the message buffer, or divides by zero in the
    derivation of the master secret. *)

Inductive outcome : Type :=
| Returns (r : tls_result_t) (c : tls1_3_context_t)
| ReadsPastBuffer
| DividesByZero.

Definition data_len (data : bytes) : Z := Z.of_nat (length data).

Definition tls_process_client_hello (c : tls1_3_context_t) (data : bytes) : outcome :=
  if negb (state_eqb (state c) TLS_STATE_CLIENT_HELLO) then
    Returns TLS_ERROR_INVALID_STATE c
  else if data_len data <? 4 then
    Returns TLS_ERROR_INVALID_MESSAGE c
  else
    match memcpy_from data 4 32 with
    | Some random =>
        Returns TLS_SUCCESS
          (set_state (set_client_random c random) TLS_STATE_SERVER_HELLO)
    | None => ReadsPastBuffer
    end.

Definition tls_process_server_hello (c : tls1_3_context_t) (data : bytes) : outcome :=
  if negb (state_eqb (state c) TLS_STATE_SERVER_HELLO) then
    Returns TLS_ERROR_INVALID_STATE c
  else if data_len data <? 4 then
    Returns TLS_ERROR_INVALID_MESSAGE c
  else
    match memcpy_from data 4 32 with
    | Some random =>
        Returns TLS_SUCCESS
          (set_state (set_server_random c random) TLS_STATE_CHANGE_CIPHER_SPEC)
    | None => ReadsPastBuffer
    end.

Definition tls_process_change_cipher_spec (c : tls1_3_context_t) (data : bytes)
  : outcome :=
  if negb (state_eqb (state c) TLS_STATE_CHANGE_CIPHER_SPEC) then
    Returns TLS_ERROR_INVALID_STATE c
  else if (data_len data <? 1) || negb (nth 0 data 0 =? 1) then
    Returns TLS_ERROR_INVALID_MESSAGE c
  else
    let shared_secret := zeros 32 in
    match tls_derive_master_secret c shared_secret with
    | None => DividesByZero
    | Some (result, c1) =>
        if negb (tls_succeeded result) then Returns result c1
        else
          let '(result, c2) := tls_derive_traffic_keys c1 in
          if negb (tls_succeeded result) then Returns result c2
          else
            let '(result, a) :=
              aes_init_at (aes_ctx c2) (client_write_key c2) AES_KEY_256 in
            let c3 := set_aes_ctx c2 a in
            if negb (aes_succeeded result) then
              Returns TLS_ERROR_CRYPTO_FAILURE c3
            else
              Returns TLS_SUCCESS (set_state c3 TLS_STATE_FINISHED)
    end.

Definition tls_process_finished (c : tls1_3_context_t) (data : bytes) : outcome :=
  if negb (state_eqb (state c) TLS_STATE_FINISHED) then
    Returns TLS_ERROR_INVALID_STATE c
  else if data_len data <? 32 then
    Returns TLS_ERROR_INVALID_MESSAGE c
  else
    Returns TLS_SUCCESS (set_state c TLS_STATE_APPLICATION_DATA).

(** [tls1_3_process_handshake].  The [switch] is taken as the chain of
    comparisons of [msg_type] with its labels in the order they are
    written, so a label whose value repeats an earlier one is never
    selected. *)
Definition tls1_3_process_handshake (c : tls1_3_context_t) (data : bytes) : outcome :=
  if data_len data <? 4 then
    Returns TLS_ERROR_INVALID_MESSAGE c
  else
    let msg_type := nth 0 data 0 in
    if msg_type =? TLS_MSG_CLIENT_HELLO then tls_process_client_hello c data
    else if msg_type =? TLS_MSG_SERVER_HELLO then tls_process_server_hello c data
    else if msg_type =? TLS_MSG_CHANGE_CIPHER_SPEC then
      tls_process_change_cipher_spec c data
    else if msg_type =? TLS_MSG_FINISHED then tls_process_finished c data
    else Returns TLS_ERROR_UNSUPPORTED_MESSAGE c.

Definition tls1_3_get_state (c : tls1_3_context_t) : tls_handshake_state_t :=
  state c.

(** ** The record layer

    A record call leaves a result code, the context, the bytes it wrote to
    the output buffer and, when it stored one, the length it reported
    through [ciphertext_len] or [plaintext_len]. *)

Record record_result : Type := {
  rr_status : tls_result_t;
  rr_ctx : tls1_3_context_t;
  rr_output : bytes;
  rr_length : option nat
}.

(** The body of [for (size_t i = 0; i < blocks; i++)] with [n] iterations
    left at index [i]: block [i] of the input goes through the provider,
    whose 16 output bytes land at [ciphertext + i * 16], that is behind the
    blocks written so far.  A provider error leaves the loop at once; what
    the failed call left in its output block is not recorded. *)
Fixpoint encrypt_blocks (n i : nat) (p : option aes_context_t) (plaintext out : bytes)
  : aes_result_t * option aes_context_t * bytes :=
  match n with
  | O => (AES_SUCCESS, p, out)
  | S n' =>
      let '(result, p', o) := aes_encrypt_block_at p (block_at plaintext i) in
      if negb (aes_succeeded result) then (result, p', out)
      else encrypt_blocks n' (S i) p' plaintext (out ++ o)
  end.

Fixpoint decrypt_blocks (n i : nat) (p : option aes_context_t) (ciphertext out : bytes)
  : aes_result_t * option aes_context_t * bytes :=
  match n with
  | O => (AES_SUCCESS, p, out)
  | S n' =>
      let '(result, p', o) := aes_decrypt_block_at p (block_at ciphertext i) in
      if negb (aes_succeeded result) then (result, p', out)
      else decrypt_blocks n' (S i) p' ciphertext (out ++ o)
  end.

(** [ctx->sequence_number++] on a [uint64_t]. *)
Definition uint64_succ (n : Z) : Z := (n + 1) mod 2 ^ 64.

Definition tls1_3_encrypt_data (c : tls1_3_context_t) (plaintext : bytes)
  : record_result :=
  let plaintext_len := length plaintext in
  if negb (state_eqb (state c) TLS_STATE_APPLICATION_DATA) then
    {| rr_status := TLS_ERROR_INVALID_STATE; rr_ctx := c;
       rr_output := []; rr_length := None |}
  else if negb (plaintext_len mod 16 =? 0)%nat then
    {| rr_status := TLS_ERROR_INVALID_BLOCK_SIZE; rr_ctx := c;
       rr_output := []; rr_length := None |}
  else
    let blocks := (plaintext_len / 16)%nat in
    let '(result, p, out) := encrypt_blocks blocks 0 (aes_ctx c) plaintext [] in
    let c1 := set_aes_ctx c p in
    if negb (aes_succeeded result) then
      {| rr_status := TLS_ERROR_CRYPTO_FAILURE; rr_ctx := c1;
         rr_output := out; rr_length := None |}
    else
      {| rr_status := TLS_SUCCESS;
         rr_ctx := set_sequence_number c1 (uint64_succ (sequence_number c1));
         rr_output := out; rr_length := Some plaintext_len |}.

Definition tls1_3_decrypt_data (c : tls1_3_context_t) (ciphertext : bytes)
  : record_result :=
  let ciphertext_len := length ciphertext in
  if negb (state_eqb (state c) TLS_STATE_APPLICATION_DATA) then
    {| rr_status := TLS_ERROR_INVALID_STATE; rr_ctx := c;
       rr_output := []; rr_length := None |}
  else if negb (ciphertext_len mod 16 =? 0)%nat then
    {| rr_status := TLS_ERROR_INVALID_BLOCK_SIZE; rr_ctx := c;
       rr_output := []; rr_length := None |}
  else
    let blocks := (ciphertext_len / 16)%nat in
    let '(result, p, out) := decrypt_blocks blocks 0 (aes_ctx c) ciphertext [] in
    let c1 := set_aes_ctx c p in
    if negb (aes_succeeded result) then
      {| rr_status := TLS_ERROR_CRYPTO_FAILURE; rr_ctx := c1;
         rr_output := out; rr_length := None |}
    else
      {| rr_status := TLS_SUCCESS;
         rr_ctx := set_sequence_number c1 (uint64_succ (sequence_number c1));
         rr_output := out; rr_length := Some ciphertext_len |}.

(** ** Cleanup and initialisation *)

Inductive handle : Type := AES_HANDLE | SHA256_HANDLE | RSA_HANDLE | EC_HANDLE.

(** [tls1_3_cleanup]: each handle that is not NULL is cleaned, freed and
    set to NULL, then the whole structure is zeroed.  Next to the context
    the model lists the handles the call released, in order. *)
Definition tls1_3_cleanup (c : tls1_3_context_t) : tls1_3_context_t * list handle :=
  let '(c1, f1) :=
    match aes_ctx c with
    | Some _ => (set_aes_ctx c None, [AES_HANDLE])
    | None => (c, [])
    end in
  let '(c2, f2) :=
    if sha256_ctx c1
    then (set_handles c1 false (rsa_ctx c1) (ec_ctx c1), [SHA256_HANDLE])
    else (c1, []) in
  let '(c3, f3) :=
    if rsa_ctx c2
    then (set_handles c2 (sha256_ctx c2) false (ec_ctx c2), [RSA_HANDLE])
    else (c2, []) in
  let '(_, f4) :=
    if ec_ctx c3
    then (set_handles c3 (sha256_ctx c3) (rsa_ctx c3) false, [EC_HANDLE])
    else (c3, []) in
  (zeroed_context, f1 ++ f2 ++ f3 ++ f4).

(** What the four [malloc] calls of [tls1_3_init] answer: for the AES
    context the (uninitialised) object or NULL, for the others whether the
    pointer is not NULL. *)
Record allocations : Type := {
  malloc_aes : option aes_context_t;
  malloc_sha256 : bool;
  malloc_rsa : bool;
  malloc_ec : bool
}.

(** [tls1_3_init].  The [sha256_init], [rsa_init] and [ec_init] calls that
    follow the allocations act on objects the context only points to. *)
Definition tls1_3_init (m : allocations) : tls_result_t * tls1_3_context_t :=
  let c0 := set_state zeroed_context TLS_STATE_CLIENT_HELLO in
  let c1 := set_handles (set_aes_ctx c0 (malloc_aes m))
              (malloc_sha256 m) (malloc_rsa m) (malloc_ec m) in
  if match aes_ctx c1 with None => true | Some _ => false end
     || negb (sha256_ctx c1) || negb (rsa_ctx c1) || negb (ec_ctx c1)
  then (TLS_ERROR_MEMORY_ALLOCATION, fst (tls1_3_cleanup c1))
  else (TLS_SUCCESS, c1).

(** ** Contexts the interface can produce

    One call of the handshake or record interface on a live context. *)
Inductive api_step : tls1_3_context_t -> tls1_3_context_t -> Prop :=
| step_handshake c data r c' :
    tls1_3_process_handshake c data = Returns r c' -> api_step c c'
| step_encrypt c plaintext :
    api_step c (rr_ctx (tls1_3_encrypt_data c plaintext))
| step_decrypt c ciphertext :
    api_step c (rr_ctx (tls1_3_decrypt_data c ciphertext)).

(** The contexts reached from a successful [tls1_3_init]. *)
Inductive reachable : tls1_3_context_t -> Prop :=
| reach_init m c : tls1_3_init m = (TLS_SUCCESS, c) -> reachable c
| reach_step c c' : reachable c -> api_step c c' -> reachable c'.

(** The states before FINISHED. *)
Definition before_finished (s : tls_handshake_state_t) : Prop :=
  s = TLS_STATE_CLIENT_HELLO \/ s = TLS_STATE_SERVER_HELLO
  \/ s = TLS_STATE_CHANGE_CIPHER_SPEC.


(** For a set [holds_key] of AES contexts: blocks [0 .. n) of [cs]
    decrypt, on each of them, to blocks [i .. i + n) of [ps]. *)
Definition blocks_decrypt_to (holds_key : aes_context_t -> Prop)
  (cs ps : bytes) (i n : nat) : Prop :=
  forall j a2,
    (j < n)%nat -> holds_key a2 ->
    exists a3,
      aes_decrypt_block a2 (block_at cs j) = (AES_SUCCESS, a3, block_at ps (i + j))
      /\ holds_key a3.

(** The context a successful [tls1_3_init] leaves when [malloc] handed out
    the AES object [a]. *)
Definition fresh_context (a : aes_context_t) : tls1_3_context_t :=
  snd (tls1_3_init {| malloc_aes := Some a; malloc_sha256 := true;
                      malloc_rsa := true; malloc_ec := true |}).

(** The result code of a returned call. *)
Definition result_of (o : outcome) : option tls_result_t :=
  match o with
  | Returns r _ => Some r
  | ReadsPastBuffer => None
  | DividesByZero => None
  end.

(** The context of a returned call, [otherwise] when the call did not
    return. *)
Definition context_after (o : outcome) (otherwise : tls1_3_context_t)
  : tls1_3_context_t :=
  match o with
  | Returns _ c => c
  | ReadsPastBuffer => otherwise
  | DividesByZero => otherwise
  end.

(** The context after [tls1_3_process_handshake] took a CLIENT_HELLO and a
    SERVER_HELLO with 32-byte randoms. *)
Definition hello_exchanged (a : aes_context_t) : tls1_3_context_t :=
  let c0 := fresh_context a in
  let c1 := context_after
              (tls1_3_process_handshake c0
                 (handshake_message TLS_MSG_CLIENT_HELLO (repeat 7 32))) c0 in
  context_after
    (tls1_3_process_handshake c1
       (handshake_message TLS_MSG_SERVER_HELLO (repeat 9 32))) c1.

(** The context the two remaining handlers leave when they are entered
    directly, with a buffer that starts with the flag byte 1 and with 32
    bytes of verify data. *)
Definition established (a : aes_context_t) : tls1_3_context_t :=
  let c2 := hello_exchanged a in
  let c3 := context_after (tls_process_change_cipher_spec c2 [1]) c2 in
  context_after (tls_process_finished c3 (repeat 5 32)) c3.

(** What every context reached through the interface still looks like. *)
Definition handshake_pending (c : tls1_3_context_t) : Prop :=
  before_finished (state c)
  /\ master_secret c = zeros 48
  /\ client_write_key c = zeros 32 /\ server_write_key c = zeros 32
  /\ client_write_iv c = zeros 12 /\ server_write_iv c = zeros 12
  /\ sequence_number c = 0
  /\ aes_ctx c <> None.

(** The context [tls_derive_master_secret] leaves on the all-zero 32-byte
    secret of [tls_process_change_cipher_spec]. *)
Definition with_master_secret (c : tls1_3_context_t) : tls1_3_context_t :=
  match tls_derive_master_secret c (zeros 32) with
  | Some (_, c1) => c1
  | None => c
  end.

(** What [tls_process_change_cipher_spec] derives, from its all-zero shared
    secret. *)
Definition derived_secrets : tls1_3_context_t :=
  snd (tls_derive_traffic_keys (with_master_secret zeroed_context)).

(** The part of a context no record call writes. *)
Definition same_session (c c' : tls1_3_context_t) : Prop :=
  state c' = state c
  /\ client_random c' = client_random c /\ server_random c' = server_random c
  /\ master_secret c' = master_secret c
  /\ client_write_key c' = client_write_key c
  /\ server_write_key c' = server_write_key c
  /\ client_write_iv c' = client_write_iv c
  /\ server_write_iv c' = server_write_iv c
  /\ sha256_ctx c' = sha256_ctx c /\ rsa_ctx c' = rsa_ctx c
  /\ ec_ctx c' = ec_ctx c
  /\ handshake_hash c' = handshake_hash c
  /\ (aes_ctx c' = None <-> aes_ctx c = None).

(** The provider's ciphertext of blocks [i .. i + n) of a buffer, each
    encrypted on the AES object [a]. *)
Definition blocks_of (a : aes_context_t) (p : bytes) (i n : nat) : bytes :=
  concat (map (fun j => snd (aes_encrypt_block a (block_at p j))) (seq i n)).

End Tls13.

(** ** Messages and providers used as concrete inputs *)

(** A 16-byte buffer from a block argument. *)
Definition sixteen (b : bytes) : bytes := firstn 16 (b ++ zeros 16).

Lemma sixteen_length b : length (sixteen b) = 16%nat.
Proof.
  unfold sixteen. rewrite length_firstn, length_app. unfold zeros.
  rewrite repeat_length. lia.
Qed.

(** A provider that always succeeds: its context is the installed key, and
    a block is transformed by xor with the first key byte, in both
    directions. *)
Definition xor_block (key b : bytes) : bytes :=
  map (fun x => Z.lxor x (nth 0 key 0)) (sixteen b).

Lemma xor_block_length key b : length (xor_block key b) = 16%nat.
Proof. unfold xor_block. rewrite length_map. apply sixteen_length. Qed.

Definition xor_provider : AesProvider :=
  {| aes_context_t := bytes;
     aes_init := fun _ key _ => (AES_SUCCESS, key);
     aes_encrypt_block := fun a b => (AES_SUCCESS, a, xor_block a b);
     aes_decrypt_block := fun a b => (AES_SUCCESS, a, xor_block a b);
     aes_on_null_context := AES_ERROR_INVALID_PARAM;
     aes_encrypt_block_output := fun a b => xor_block_length a b;
     aes_decrypt_block_output := fun a b => xor_block_length a b |}.




(** The context on which the xor provider has been armed by the
    CHANGE_CIPHER_SPEC handler. *)
Definition xor_session : @tls1_3_context_t xor_provider :=
  @established xor_provider [].


(** * The FIPS provider of [fips_provider.c]

    The provider context, the module data it is filled with, the integrity
    value, the two self-tests and the interface functions.  As for the TLS
    functions, a context is the content of the structure a valid pointer
    points to. *)

Inductive fips_result_t : Type :=
| FIPS_SUCCESS
| FIPS_ERROR_INVALID_PARAM
| FIPS_ERROR_SELFTEST_FAILED
| FIPS_ERROR_SELFTEST_NOT_PASSED
| FIPS_ERROR_ALGORITHM_NOT_APPROVED
| FIPS_ERROR_INTEGRITY_CHECK_FAILED
| FIPS_ERROR_MEMORY_ALLOCATION.

Inductive fips_selftest_status_t : Type :=
| FIPS_SELFTEST_NOT_RUN
| FIPS_SELFTEST_PASSED
| FIPS_SELFTEST_FAILED.

Definition fips_succeeded (r : fips_result_t) : bool :=
  match r with FIPS_SUCCESS => true | _ => false end.

Definition selftest_passed (s : fips_selftest_status_t) : bool :=
  match s with FIPS_SELFTEST_PASSED => true | _ => false end.

Record fips_provider_context_t : Type := {
  selftest_status : fips_selftest_status_t;
  module_id : bytes;
  module_version : bytes;
  module_name : bytes;
  certificate_number : bytes;
  integrity_key : bytes;
  integrity_value : bytes;
  power_on_selftest_passed : Z;
  conditional_selftest_passed : Z
}.

(** [fips_module_info_t] *)
Record fips_module_info_t : Type := {
  info_module_id : bytes;
  info_module_version : bytes;
  info_module_name : bytes;
  info_certificate_number : bytes;
  info_integrity_value : bytes
}.

Definition FIPS_CERTIFICATE_NUMBER : string := "FIPS 140-3 #4985".
Definition FIPS_MODULE_NAME : string := "OpenSSL FIPS Provider".

Definition fips_approved_algorithms : list string :=
  [ "AES-128-CBC"; "AES-192-CBC"; "AES-256-CBC";
    "AES-128-GCM"; "AES-192-GCM"; "AES-256-GCM";
    "SHA-1"; "SHA-224"; "SHA-256"; "SHA-384"; "SHA-512";
    "RSA-1024"; "RSA-2048"; "RSA-3072"; "RSA-4096";
    "ECDSA-P256"; "ECDSA-P384"; "ECDSA-P521";
    "HMAC-SHA1"; "HMAC-SHA224"; "HMAC-SHA256"; "HMAC-SHA384"; "HMAC-SHA512";
    "DRBG-CTR-AES128"; "DRBG-CTR-AES192"; "DRBG-CTR-AES256";
    "DRBG-HASH-SHA1"; "DRBG-HASH-SHA224"; "DRBG-HASH-SHA256";
    "DRBG-HASH-SHA384"; "DRBG-HASH-SHA512";
    "KDF-HKDF-SHA1"; "KDF-HKDF-SHA224"; "KDF-HKDF-SHA256";
    "KDF-HKDF-SHA384"; "KDF-HKDF-SHA512";
    "KDF-PBKDF2-SHA1"; "KDF-PBKDF2-SHA224"; "KDF-PBKDF2-SHA256";
    "KDF-PBKDF2-SHA384"; "KDF-PBKDF2-SHA512" ]%string.

Definition fips_power_on_test_data : bytes :=
  [ 0x00; 0x01; 0x02; 0x03; 0x04; 0x05; 0x06; 0x07;
    0x08; 0x09; 0x0a; 0x0b; 0x0c; 0x0d; 0x0e; 0x0f;
    0x10; 0x11; 0x12; 0x13; 0x14; 0x15; 0x16; 0x17;
    0x18; 0x19; 0x1a; 0x1b; 0x1c; 0x1d; 0x1e; 0x1f ].

Definition fips_power_on_test_expected : bytes :=
  [ 0x2b; 0x7e; 0x15; 0x16; 0x28; 0xae; 0xd2; 0xa6;
    0xab; 0xf7; 0x15; 0x88; 0x09; 0xcf; 0x4f; 0x3c;
    0x2b; 0x7e; 0x15; 0x16; 0x28; 0xae; 0xd2; 0xa6;
    0xab; 0xf7; 0x15; 0x88; 0x09; 0xcf; 0x4f; 0x3c ].

(** The characters of the C string that starts a buffer: the bytes before
    its first NUL. *)
Fixpoint c_str (mem : bytes) : bytes :=
  match mem with
  | [] => []
  | b :: rest => if b =? 0 then [] else b :: c_str rest
  end.

(** The [n] bytes [strncpy(dst, src, n)] writes: the characters of [src],
    at most [n] of them, then NULs up to [n]. *)
Definition strncpy (src : bytes) (n : nat) : bytes :=
  let s := firstn n (c_str src) in
  s ++ zeros (n - length s).

(** [memcmp(a, b, n) == 0] *)
Definition memcmp_equal (a b : bytes) (n : nat) : bool :=
  if list_eq_dec Z.eq_dec (firstn n a) (firstn n b) then true else false.

(** [memset(ctx, 0, sizeof(fips_provider_context_t))] *)
Definition fips_zeroed_context : fips_provider_context_t :=
  {| selftest_status := FIPS_SELFTEST_NOT_RUN;
     module_id := zeros 16; module_version := zeros 4;
     module_name := zeros 64; certificate_number := zeros 32;
     integrity_key := zeros 32; integrity_value := zeros 32;
     power_on_selftest_passed := 0; conditional_selftest_passed := 0 |}.

Definition set_selftest_status (c : fips_provider_context_t)
  (s : fips_selftest_status_t) :=
  {| selftest_status := s;
     module_id := module_id c; module_version := module_version c;
     module_name := module_name c; certificate_number := certificate_number c;
     integrity_key := integrity_key c; integrity_value := integrity_value c;
     power_on_selftest_passed := power_on_selftest_passed c;
     conditional_selftest_passed := conditional_selftest_passed c |}.

Definition set_module_id (c : fips_provider_context_t) (v : bytes) :=
  {| selftest_status := selftest_status c;
     module_id := v; module_version := module_version c;
     module_name := module_name c; certificate_number := certificate_number c;
     integrity_key := integrity_key c; integrity_value := integrity_value c;
     power_on_selftest_passed := power_on_selftest_passed c;
     conditional_selftest_passed := conditional_selftest_passed c |}.

Definition set_module_version (c : fips_provider_context_t) (v : bytes) :=
  {| selftest_status := selftest_status c;
     module_id := module_id c; module_version := v;
     module_name := module_name c; certificate_number := certificate_number c;
     integrity_key := integrity_key c; integrity_value := integrity_value c;
     power_on_selftest_passed := power_on_selftest_passed c;
     conditional_selftest_passed := conditional_selftest_passed c |}.

Definition set_module_name (c : fips_provider_context_t) (v : bytes) :=
  {| selftest_status := selftest_status c;
     module_id := module_id c; module_version := module_version c;
     module_name := v; certificate_number := certificate_number c;
     integrity_key := integrity_key c; integrity_value := integrity_value c;
     power_on_selftest_passed := power_on_selftest_passed c;
     conditional_selftest_passed := conditional_selftest_passed c |}.

Definition set_certificate_number (c : fips_provider_context_t) (v : bytes) :=
  {| selftest_status := selftest_status c;
     module_id := module_id c; module_version := module_version c;
     module_name := module_name c; certificate_number := v;
     integrity_key := integrity_key c; integrity_value := integrity_value c;
     power_on_selftest_passed := power_on_selftest_passed c;
     conditional_selftest_passed := conditional_selftest_passed c |}.

Definition set_integrity_key (c : fips_provider_context_t) (v : bytes) :=
  {| selftest_status := selftest_status c;
     module_id := module_id c; module_version := module_version c;
     module_name := module_name c; certificate_number := certificate_number c;
     integrity_key := v; integrity_value := integrity_value c;
     power_on_selftest_passed := power_on_selftest_passed c;
     conditional_selftest_passed := conditional_selftest_passed c |}.

Definition set_integrity_value (c : fips_provider_context_t) (v : bytes) :=
  {| selftest_status := selftest_status c;
     module_id := module_id c; module_version := module_version c;
     module_name := module_name c; certificate_number := certificate_number c;
     integrity_key := integrity_key c; integrity_value := v;
     power_on_selftest_passed := power_on_selftest_passed c;
     conditional_selftest_passed := conditional_selftest_passed c |}.

Definition set_power_on_selftest_passed (c : fips_provider_context_t) (v : Z) :=
  {| selftest_status := selftest_status c;
     module_id := module_id c; module_version := module_version c;
     module_name := module_name c; certificate_number := certificate_number c;
     integrity_key := integrity_key c; integrity_value := integrity_value c;
     power_on_selftest_passed := v;
     conditional_selftest_passed := conditional_selftest_passed c |}.

Definition set_conditional_selftest_passed (c : fips_provider_context_t) (v : Z) :=
  {| selftest_status := selftest_status c;
     module_id := module_id c; module_version := module_version c;
     module_name := module_name c; certificate_number := certificate_number c;
     integrity_key := integrity_key c; integrity_value := integrity_value c;
     power_on_selftest_passed := power_on_selftest_passed c;
     conditional_selftest_passed := v |}.

Definition fips_generate_module_id (c : fips_provider_context_t) :=
  set_module_id c
    [ 0x01; 0x02; 0x03; 0x04; 0x05; 0x06; 0x07; 0x08;
      0x09; 0x0a; 0x0b; 0x0c; 0x0d; 0x0e; 0x0f; 0x10 ].

Definition fips_set_module_version (c : fips_provider_context_t) :=
  set_module_version c [3; 0; 0; 0].

(** [strncpy] fills all but the last byte of the array, which is then set
    to NUL. *)
Definition fips_set_module_name (c : fips_provider_context_t) :=
  set_module_name c (strncpy (c_string FIPS_MODULE_NAME) 63 ++ [0]).

Definition fips_set_certificate_number (c : fips_provider_context_t) :=
  set_certificate_number c (strncpy (c_string FIPS_CERTIFICATE_NUMBER) 31 ++ [0]).

Definition fips_generate_integrity_key (c : fips_provider_context_t) :=
  set_integrity_key c
    [ 0x2b; 0x7e; 0x15; 0x16; 0x28; 0xae; 0xd2; 0xa6;
      0xab; 0xf7; 0x15; 0x88; 0x09; 0xcf; 0x4f; 0x3c;
      0x2b; 0x7e; 0x15; 0x16; 0x28; 0xae; 0xd2; 0xa6;
      0xab; 0xf7; 0x15; 0x88; 0x09; 0xcf; 0x4f; 0x3c ].

(** The 116 bytes [fips_calculate_integrity_value] gathers in [data]: the
    four arrays, of 16, 4, 64 and 32 bytes, in the order it copies them. *)
Definition integrity_data (c : fips_provider_context_t) : bytes :=
  firstn 16 (module_id c) ++ firstn 4 (module_version c)
  ++ firstn 64 (module_name c) ++ firstn 32 (certificate_number c).

(** The inner loop of the hash: [v = 0; for j: v ^= data[j]]. *)
Definition xor_of (data : bytes) : Z := fold_left Z.lxor data 0.

(** [fips_calculate_integrity_value] *)
Definition fips_calculate_integrity_value (c : fips_provider_context_t) :=
  let data := integrity_data c in
  set_integrity_value c
    (tabulate 32 (fun i => Z.lxor (xor_of data) (Z.of_nat i))).

(** [fips_run_power_on_selftest] *)
Definition fips_run_power_on_selftest (c : fips_provider_context_t)
  : fips_result_t * fips_provider_context_t :=
  let test_result := map (fun b => Z.lxor b 0x2b) fips_power_on_test_data in
  if memcmp_equal test_result fips_power_on_test_expected 32
  then (FIPS_SUCCESS, set_power_on_selftest_passed c 1)
  else (FIPS_ERROR_SELFTEST_FAILED, set_power_on_selftest_passed c 0).

(** [fips_run_conditional_selftest] *)
Definition fips_run_conditional_selftest (c : fips_provider_context_t)
  : fips_result_t * fips_provider_context_t :=
  let test_data := tabulate 16 (fun i => (Z.of_nat i * 7 + 13) mod 256) in
  let zero_count := length (filter (fun b => b =? 0) test_data) in
  if (zero_count <? 16)%nat
  then (FIPS_SUCCESS, set_conditional_selftest_passed c 1)
  else (FIPS_ERROR_SELFTEST_FAILED, set_conditional_selftest_passed c 0).

(** [fips_provider_init]; what the structure held before is wiped by the
    [memset]. *)
Definition fips_provider_init (c : fips_provider_context_t)
  : fips_result_t * fips_provider_context_t :=
  let c := fips_zeroed_context in
  let c := fips_generate_module_id c in
  let c := fips_set_module_version c in
  let c := fips_set_module_name c in
  let c := fips_set_certificate_number c in
  let c := fips_generate_integrity_key c in
  let c := fips_calculate_integrity_value c in
  let '(result, c) := fips_run_power_on_selftest c in
  if negb (fips_succeeded result) then (result, c)
  else
    let '(result, c) := fips_run_conditional_selftest c in
    if negb (fips_succeeded result) then (result, c)
    else (FIPS_SUCCESS, set_selftest_status c FIPS_SELFTEST_PASSED).

(** [fips_is_algorithm_approved]: the table is searched from its first
    entry, [strcmp] comparing the names as C strings. *)
Fixpoint approved_among (table : list string) (algorithm_name : string)
  : fips_result_t :=
  match table with
  | [] => FIPS_ERROR_ALGORITHM_NOT_APPROVED
  | entry :: rest =>
      if String.eqb algorithm_name entry then FIPS_SUCCESS
      else approved_among rest algorithm_name
  end.

Definition fips_is_algorithm_approved (algorithm_name : string) : fips_result_t :=
  approved_among fips_approved_algorithms algorithm_name.

(** [fips_get_module_info] with the structure [info] points to before and
    after the call. *)
Definition fips_get_module_info (c : fips_provider_context_t)
  (info : fips_module_info_t) : fips_result_t * fips_module_info_t :=
  if negb (selftest_passed (selftest_status c)) then
    (FIPS_ERROR_SELFTEST_NOT_PASSED, info)
  else
    (FIPS_SUCCESS,
     {| info_module_id := firstn 16 (module_id c);
        info_module_version := firstn 4 (module_version c);
        info_module_name := strncpy (module_name c) 63 ++ [0];
        info_certificate_number := strncpy (certificate_number c) 31 ++ [0];
        info_integrity_value := firstn 32 (integrity_value c) |}).

(** [fips_verify_module_integrity].  The function recomputes the value in
    a copy of the context and then compares the stored value with the
    local array [calculated_integrity], which nothing has written:
    [calculated_integrity] is what that array happens to hold. *)
Definition fips_verify_module_integrity (c : fips_provider_context_t)
  (calculated_integrity : bytes) : fips_result_t :=
  if negb (selftest_passed (selftest_status c)) then
    FIPS_ERROR_SELFTEST_NOT_PASSED
  else
    let temp_ctx := fips_calculate_integrity_value c in
    if memcmp_equal (integrity_value c) calculated_integrity 32
    then FIPS_SUCCESS
    else FIPS_ERROR_INTEGRITY_CHECK_FAILED.

(** [fips_run_continuous_selftest] *)
Definition fips_run_continuous_selftest (c : fips_provider_context_t)
  : fips_result_t * fips_provider_context_t :=
  if negb (selftest_passed (selftest_status c)) then
    (FIPS_ERROR_SELFTEST_NOT_PASSED, c)
  else
    let '(result, c1) := fips_run_conditional_selftest c in
    if negb (fips_succeeded result)
    then (result, set_selftest_status c1 FIPS_SELFTEST_FAILED)
    else (FIPS_SUCCESS, c1).

Definition fips_get_selftest_status (c : fips_provider_context_t)
  : fips_selftest_status_t :=
  selftest_status c.

(** [fips_provider_cleanup] *)
Definition fips_provider_cleanup (c : fips_provider_context_t)
  : fips_provider_context_t :=
  fips_zeroed_context.

(** One call of the provider interface that can write the context. *)
Inductive fips_step : fips_provider_context_t -> fips_provider_context_t -> Prop :=
| fips_step_init c : fips_step c (snd (fips_provider_init c))
| fips_step_continuous c : fips_step c (snd (fips_run_continuous_selftest c))
| fips_step_cleanup c : fips_step c (fips_provider_cleanup c).

(** The contexts the interface produces, starting with [fips_provider_init]
    on a structure of any content. *)
Inductive fips_reachable : fips_provider_context_t -> Prop :=
| fips_reach_init c : fips_reachable (snd (fips_provider_init c))
| fips_reach_step c c' : fips_reachable c -> fips_step c c' -> fips_reachable c'.

(** * The command line front end of [openssl_cli.c]

    The command handlers, the handler table with its lookup and
    [openssl_cli_main] once the options are parsed.  [parse_arguments]
    rests on [getopt_long] of the C library, so the context it fills and
    the value it returns are inputs here.  A printed text is the list of
    the strings of the successive [printf] calls. *)

Local Open Scope string_scope.

Definition nl : string := String (ascii_of_nat 10) EmptyString.

Record openssl_cli_context_t : Type := {
  command : option string;
  input_file : option string;
  output_file : option string;
  algorithm : option string;
  key_file : option string;
  cert_file : option string;
  fips_mode : Z;
  verbose : Z;
  help : Z
}.

(** [p ? p : default] for a string pointer. *)
Definition or_default (p : option string) (default : string) : string :=
  match p with
  | Some s => s
  | None => default
  end.

(** [flag ? "enabled" : "disabled"] *)
Definition enabled (flag : Z) : string :=
  if (flag =? 0)%Z then "disabled" else "enabled".

Definition print_help (program_name : string) : list string :=
  [ "OpenSSL CLI - Domain Driven Design Implementation" ++ nl;
    "Usage: " ++ program_name ++ " [OPTIONS] COMMAND [ARGS]" ++ nl ++ nl;
    "Commands:" ++ nl;
    "  enc         Encrypt/decrypt data" ++ nl;
    "  genrsa      Generate RSA key pair" ++ nl;
    "  gendsa      Generate DSA key pair" ++ nl;
    "  genpkey     Generate private key" ++ nl;
    "  req         Generate certificate request" ++ nl;
    "  x509        X.509 certificate operations" ++ nl;
    "  s_client    SSL/TLS client" ++ nl;
    "  s_server    SSL/TLS server" ++ nl;
    "  fips        FIPS operations" ++ nl;
    "  version     Show version information" ++ nl;
    nl ++ "Options:" ++ nl;
    "  -in FILE    Input file" ++ nl;
    "  -out FILE   Output file" ++ nl;
    "  -algorithm ALG Algorithm to use" ++ nl;
    "  -key FILE   Key file" ++ nl;
    "  -cert FILE  Certificate file" ++ nl;
    "  -fips       Enable FIPS mode" ++ nl;
    "  -v          Verbose output" ++ nl;
    "  -h, --help  Show this help message" ++ nl;
    nl ++ "Examples:" ++ nl;
    "  " ++ program_name
      ++ " enc -in data.txt -out data.enc -algorithm aes-256-cbc" ++ nl;
    "  " ++ program_name ++ " genrsa -out private.key -bits 2048" ++ nl;
    "  " ++ program_name ++ " s_client -connect example.com:443" ++ nl;
    "  " ++ program_name ++ " fips -status" ++ nl ].

Definition print_version : list string :=
  [ "OpenSSL CLI 3.0.0 (DDD Implementation)" ++ nl;
    "Built with Domain Driven Design architecture" ++ nl;
    "FIPS 140-3 compliance support" ++ nl;
    "TLS 1.3 protocol support" ++ nl ].

(** A handler returns its [int] and what it printed. *)
Definition handle_enc_command (ctx : openssl_cli_context_t) : Z * list string :=
  (0%Z,
   [ "Encryption/Decryption command" ++ nl;
     "Input file: " ++ or_default (input_file ctx) "stdin" ++ nl;
     "Output file: " ++ or_default (output_file ctx) "stdout" ++ nl;
     "Algorithm: " ++ or_default (algorithm ctx) "aes-256-cbc" ++ nl;
     "FIPS mode: " ++ enabled (fips_mode ctx) ++ nl ]).

Definition handle_genrsa_command (ctx : openssl_cli_context_t) : Z * list string :=
  (0%Z,
   [ "RSA key generation command" ++ nl;
     "Output file: " ++ or_default (output_file ctx) "private.key" ++ nl;
     "Key size: 2048 bits (default)" ++ nl;
     "FIPS mode: " ++ enabled (fips_mode ctx) ++ nl ]).

Definition handle_s_client_command (ctx : openssl_cli_context_t)
  : Z * list string :=
  (0%Z,
   [ "SSL/TLS client command" ++ nl;
     "Connect to: " ++ or_default (input_file ctx) "localhost:443" ++ nl;
     "Certificate file: " ++ or_default (cert_file ctx) "none" ++ nl;
     "Key file: " ++ or_default (key_file ctx) "none" ++ nl;
     "FIPS mode: " ++ enabled (fips_mode ctx) ++ nl ]).

Definition handle_s_server_command (ctx : openssl_cli_context_t)
  : Z * list string :=
  (0%Z,
   [ "SSL/TLS server command" ++ nl;
     "Listen on: " ++ or_default (input_file ctx) "localhost:443" ++ nl;
     "Certificate file: " ++ or_default (cert_file ctx) "server.crt" ++ nl;
     "Key file: " ++ or_default (key_file ctx) "server.key" ++ nl;
     "FIPS mode: " ++ enabled (fips_mode ctx) ++ nl ]).

Definition handle_fips_command (ctx : openssl_cli_context_t) : Z * list string :=
  (0%Z,
   List.app
     [ "FIPS operations command" ++ nl;
       "FIPS mode: " ++ enabled (fips_mode ctx) ++ nl ]
     (if (fips_mode ctx =? 0)%Z then []
      else [ "FIPS provider initialized" ++ nl;
             "FIPS self-tests passed" ++ nl;
             "FIPS module integrity verified" ++ nl ])).

Definition handle_version_command (ctx : openssl_cli_context_t)
  : Z * list string :=
  (0%Z, print_version).

Record cli_command_handler_t : Type := {
  name : string;
  handler : openssl_cli_context_t -> Z * list string;
  description : string
}.

(** [command_handlers], without the closing entry of NULLs that ends the
    search. *)
Definition command_handlers : list cli_command_handler_t :=
  [ {| name := "enc"; handler := handle_enc_command;
       description := "Encrypt/decrypt data" |};
    {| name := "genrsa"; handler := handle_genrsa_command;
       description := "Generate RSA key pair" |};
    {| name := "gendsa"; handler := handle_genrsa_command;
       description := "Generate DSA key pair" |};
    {| name := "genpkey"; handler := handle_genrsa_command;
       description := "Generate private key" |};
    {| name := "req"; handler := handle_genrsa_command;
       description := "Generate certificate request" |};
    {| name := "x509"; handler := handle_genrsa_command;
       description := "X.509 certificate operations" |};
    {| name := "s_client"; handler := handle_s_client_command;
       description := "SSL/TLS client" |};
    {| name := "s_server"; handler := handle_s_server_command;
       description := "SSL/TLS server" |};
    {| name := "fips"; handler := handle_fips_command;
       description := "FIPS operations" |};
    {| name := "version"; handler := handle_version_command;
       description := "Show version information" |} ].

(** [find_command_handler]: the first entry whose name is the command. *)
Fixpoint find_handler_in (table : list cli_command_handler_t) (cmd : string)
  : option cli_command_handler_t :=
  match table with
  | []%list => None
  | (entry :: rest)%list =>
      if String.eqb entry.(name) cmd then Some entry
      else find_handler_in rest cmd
  end.

Definition find_command_handler (cmd : string) : option cli_command_handler_t :=
  find_handler_in command_handlers cmd.

(** What a run leaves: the value returned and the texts on the two
    streams. *)
Record cli_run : Type := {
  exit_code : Z;
  stdout : list string;
  stderr : list string
}.

(** [openssl_cli_main] from the point where [parse_arguments] has
    returned [parsed] and left [ctx]; [program_name] is [argv[0]]. *)
Definition openssl_cli_main (program_name : string) (parsed : Z)
  (ctx : openssl_cli_context_t) : cli_run :=
  if negb (parsed =? 0)%Z then
    {| exit_code := 1; stdout := [];
       stderr := ["Error parsing arguments" ++ nl] |}
  else
    match (if negb (help ctx =? 0)%Z then None else command ctx) with
    | None =>
        {| exit_code := 0; stdout := print_help program_name; stderr := [] |}
    | Some cmd =>
        match find_command_handler cmd with
        | None =>
            {| exit_code := 1; stdout := [];
               stderr := [ "Unknown command: " ++ cmd ++ nl;
                           "Use --help for available commands" ++ nl ] |}
        | Some h =>
            let '(result, printed) := h.(handler) ctx in
            if negb (result =? 0)%Z then
              {| exit_code := result; stdout := printed;
                 stderr := ["Command failed: " ++ cmd ++ nl] |}
            else
              {| exit_code := 0; stdout := printed; stderr := [] |}
        end
    end.

(** The context with another command. *)
Definition with_command (ctx : openssl_cli_context_t) (cmd : string) :=
  {| command := Some cmd;
     input_file := input_file ctx; output_file := output_file ctx;
     algorithm := algorithm ctx; key_file := key_file ctx;
     cert_file := cert_file ctx; fips_mode := fips_mode ctx;
     verbose := verbose ctx; help := help ctx |}.

(** The options of a run with nothing but a command. *)
Definition only_command (cmd : string) : openssl_cli_context_t :=
  {| command := Some cmd;
     input_file := None; output_file := None; algorithm := None;
     key_file := None; cert_file := None;
     fips_mode := 0; verbose := 0; help := 0 |}.

Local Close Scope string_scope.

(** * Properties *)

Section Properties.

Context {provider : AesProvider}.

(** ** The dispatcher *)

Lemma state_eqb_true s t : state_eqb s t = true <-> s = t.
Proof.
  unfold state_eqb. rewrite Z.eqb_eq.
  split; [| intros ->; reflexivity].
  destruct s, t; simpl; intro H; try reflexivity; discriminate H.
Qed.

Lemma state_eqb_false s t : s <> t -> state_eqb s t = false.
Proof.
  intro H. destruct (state_eqb s t) eqn:E; [| reflexivity].
  apply state_eqb_true in E. contradiction.
Qed.

Lemma handshake_message_header t payload :
  (data_len (handshake_message t payload) <? 4) = false
  /\ nth 0 (handshake_message t payload) 0 = t.
Proof.
  split; [| reflexivity].
  apply Z.ltb_ge. unfold data_len, handshake_message.
  cbn [length]. lia.
Qed.

(** A message of type 20 never passes the flag test of the
    CHANGE_CIPHER_SPEC handler: the byte it tests is the type byte. *)
Lemma change_cipher_spec_rejects_type_20 c data :
  nth 0 data 0 = TLS_MSG_CHANGE_CIPHER_SPEC ->
  exists r, tls_process_change_cipher_spec c data = Returns r c /\ r <> TLS_SUCCESS.
Proof.
  intro Ht. unfold tls_process_change_cipher_spec.
  destruct (negb (state_eqb (state c) TLS_STATE_CHANGE_CIPHER_SPEC)).
  - exists TLS_ERROR_INVALID_STATE. split; [reflexivity | discriminate].
  - rewrite Ht. cbn [TLS_MSG_CHANGE_CIPHER_SPEC Z.eqb Pos.eqb negb].
    rewrite orb_true_r.
    exists TLS_ERROR_INVALID_MESSAGE. split; [reflexivity | discriminate].
Qed.

(** Every way [tls1_3_process_handshake] can return: a rejection that
    leaves the context as it was, or one of the two hello transitions. *)
Lemma process_handshake_returns c data r c' :
  tls1_3_process_handshake c data = Returns r c' ->
  (c' = c /\ r <> TLS_SUCCESS)
  \/ (state c = TLS_STATE_CLIENT_HELLO /\ r = TLS_SUCCESS /\
      exists random,
        c' = set_state (set_client_random c random) TLS_STATE_SERVER_HELLO)
  \/ (state c = TLS_STATE_SERVER_HELLO /\ r = TLS_SUCCESS /\
      exists random,
        c' = set_state (set_server_random c random) TLS_STATE_CHANGE_CIPHER_SPEC).
Proof.
  unfold tls1_3_process_handshake.
  destruct (data_len data <? 4) eqn:Hlen.
  { intro H; inversion H; subst. left. split; [reflexivity | discriminate]. }
  destruct (nth 0 data 0 =? TLS_MSG_CLIENT_HELLO) eqn:T1.
  { unfold tls_process_client_hello. rewrite Hlen.
    destruct (state_eqb (state c) TLS_STATE_CLIENT_HELLO) eqn:Hs; cbn [negb].
    - apply state_eqb_true in Hs.
      destruct (memcpy_from data 4 32) as [random |]; [| discriminate].
      intro H; inversion H; subst. right; left. eauto.
    - intro H; inversion H; subst. left. split; [reflexivity | discriminate]. }
  destruct (nth 0 data 0 =? TLS_MSG_SERVER_HELLO) eqn:T2.
  { unfold tls_process_server_hello. rewrite Hlen.
    destruct (state_eqb (state c) TLS_STATE_SERVER_HELLO) eqn:Hs; cbn [negb].
    - apply state_eqb_true in Hs.
      destruct (memcpy_from data 4 32) as [random |]; [| discriminate].
      intro H; inversion H; subst. right; right. eauto.
    - intro H; inversion H; subst. left. split; [reflexivity | discriminate]. }
  destruct (nth 0 data 0 =? TLS_MSG_CHANGE_CIPHER_SPEC) eqn:T3.
  { apply Z.eqb_eq in T3.
    destruct (change_cipher_spec_rejects_type_20 c data T3) as (r0 & -> & Hr).
    intro H; inversion H; subst. left. split; [reflexivity | assumption]. }
  destruct (nth 0 data 0 =? TLS_MSG_FINISHED) eqn:T4.
  { unfold TLS_MSG_FINISHED, TLS_MSG_CHANGE_CIPHER_SPEC in *. congruence. }
  intro H; inversion H; subst. left. split; [reflexivity | discriminate].
Qed.

(** In state CHANGE_CIPHER_SPEC no message is accepted. *)
Lemma change_cipher_spec_state_stalls c data :
  state c = TLS_STATE_CHANGE_CIPHER_SPEC ->
  exists r, tls1_3_process_handshake c data = Returns r c /\ r <> TLS_SUCCESS.
Proof.
  intro Hs. unfold tls1_3_process_handshake.
  destruct (data_len data <? 4) eqn:Hlen.
  { exists TLS_ERROR_INVALID_MESSAGE. split; [reflexivity | discriminate]. }
  destruct (nth 0 data 0 =? TLS_MSG_CLIENT_HELLO).
  { unfold tls_process_client_hello. rewrite Hs. cbn.
    exists TLS_ERROR_INVALID_STATE. split; [reflexivity | discriminate]. }
  destruct (nth 0 data 0 =? TLS_MSG_SERVER_HELLO).
  { unfold tls_process_server_hello. rewrite Hs. cbn.
    exists TLS_ERROR_INVALID_STATE. split; [reflexivity | discriminate]. }
  destruct (nth 0 data 0 =? TLS_MSG_CHANGE_CIPHER_SPEC) eqn:T3.
  { apply Z.eqb_eq in T3. apply change_cipher_spec_rejects_type_20. exact T3. }
  destruct (nth 0 data 0 =? TLS_MSG_FINISHED) eqn:T4.
  { unfold TLS_MSG_FINISHED, TLS_MSG_CHANGE_CIPHER_SPEC in *. congruence. }
  exists TLS_ERROR_UNSUPPORTED_MESSAGE. split; [reflexivity | discriminate].
Qed.

(** The other handler with label 20 does not accept a message in state
    CHANGE_CIPHER_SPEC either. *)
Lemma finished_handler_rejects_before_finished c data :
  state c = TLS_STATE_CHANGE_CIPHER_SPEC ->
  tls_process_finished c data = Returns TLS_ERROR_INVALID_STATE c.
Proof.
  intro Hs. unfold tls_process_finished. rewrite Hs. reflexivity.
Qed.

(** ** The handshake run of the state table *)

(** The derivation of the CHANGE_CIPHER_SPEC handler, from its all-zero
    shared secret, gives four traffic values none of which is all zero and
    no two of which are equal; it does not depend on the context. *)
Lemma derived_traffic_keys_distinct c :
  let c2 := snd (tls_derive_traffic_keys (with_master_secret c)) in
  client_write_key c2 <> zeros 32 /\ server_write_key c2 <> zeros 32
  /\ client_write_iv c2 <> zeros 12 /\ server_write_iv c2 <> zeros 12
  /\ client_write_key c2 <> server_write_key c2
  /\ client_write_iv c2 <> server_write_iv c2
  /\ client_write_key c2 <> client_write_iv c2
  /\ client_write_key c2 <> server_write_iv c2
  /\ server_write_key c2 <> client_write_iv c2
  /\ server_write_key c2 <> server_write_iv c2.
Proof.
  cbv zeta. vm_compute.
  repeat (split; [discriminate |]). discriminate.
Qed.

(** C1 (defect of the code).  On a freshly initialized context a
    well-formed CLIENT_HELLO and a well-formed SERVER_HELLO are accepted,
    but the CHANGE_CIPHER_SPEC message with flag byte 1 is answered with
    [TLS_ERROR_INVALID_MESSAGE], and so is the FINISHED message after it:
    the state stays CHANGE_CIPHER_SPEC, never becomes APPLICATION_DATA, and
    the traffic keys stay zero. *)
Theorem handshake_run_stops_at_change_cipher_spec (a : aes_context_t) :
  let c0 := fresh_context a in
  let c1 := set_state (set_client_random c0 (repeat 7 32)) TLS_STATE_SERVER_HELLO in
  let c2 := set_state (set_server_random c1 (repeat 9 32))
              TLS_STATE_CHANGE_CIPHER_SPEC in
  tls1_3_init {| malloc_aes := Some a; malloc_sha256 := true;
                 malloc_rsa := true; malloc_ec := true |} = (TLS_SUCCESS, c0)
  /\ tls1_3_process_handshake c0
       (handshake_message TLS_MSG_CLIENT_HELLO (repeat 7 32))
     = Returns TLS_SUCCESS c1
  /\ tls1_3_process_handshake c1
       (handshake_message TLS_MSG_SERVER_HELLO (repeat 9 32))
     = Returns TLS_SUCCESS c2
  /\ tls1_3_process_handshake c2
       (handshake_message TLS_MSG_CHANGE_CIPHER_SPEC [1])
     = Returns TLS_ERROR_INVALID_MESSAGE c2
  /\ tls1_3_process_handshake c2
       (handshake_message TLS_MSG_FINISHED (repeat 5 32))
     = Returns TLS_ERROR_INVALID_MESSAGE c2
  /\ tls1_3_get_state c2 = TLS_STATE_CHANGE_CIPHER_SPEC
  /\ client_write_key c2 = zeros 32 /\ server_write_key c2 = zeros 32
  /\ client_write_iv c2 = zeros 12 /\ server_write_iv c2 = zeros 12.
Proof.
  cbv zeta. repeat (split; [reflexivity |]). reflexivity.
Qed.

(** C3 (defect of the code).  CHANGE_CIPHER_SPEC and FINISHED carry the
    same type code, 20, so the dispatcher hands every FINISHED message to
    the CHANGE_CIPHER_SPEC handler; in state FINISHED it is turned away
    with [TLS_ERROR_INVALID_STATE]. *)
Theorem finished_shares_the_change_cipher_spec_code :
  TLS_MSG_CHANGE_CIPHER_SPEC = TLS_MSG_FINISHED
  /\ (forall c payload,
        tls1_3_process_handshake c (handshake_message TLS_MSG_FINISHED payload)
        = tls_process_change_cipher_spec c
            (handshake_message TLS_MSG_FINISHED payload))
  /\ (forall c payload,
        tls1_3_process_handshake (set_state c TLS_STATE_FINISHED)
          (handshake_message TLS_MSG_FINISHED payload)
        = Returns TLS_ERROR_INVALID_STATE (set_state c TLS_STATE_FINISHED)).
Proof.
  assert (Hd : forall c payload,
             tls1_3_process_handshake c (handshake_message TLS_MSG_FINISHED payload)
             = tls_process_change_cipher_spec c
                 (handshake_message TLS_MSG_FINISHED payload)).
  { intros c payload. unfold tls1_3_process_handshake.
    destruct (handshake_message_header TLS_MSG_FINISHED payload) as [-> ->].
    reflexivity. }
  split; [reflexivity |]. split; [exact Hd |].
  intros c payload. rewrite Hd. reflexivity.
Qed.

(** ** Messages of the wrong type *)





(** ** Hello messages shorter than header plus random *)

(** A hello message of 4 to 35 bytes passes the length test of its
    handler, which then copies 32 bytes from offset 4. *)
Lemma short_client_hello_reads_past_buffer c data :
  state c = TLS_STATE_CLIENT_HELLO ->
  nth 0 data 0 = TLS_MSG_CLIENT_HELLO ->
  4 <= data_len data < 36 ->
  tls1_3_process_handshake c data = ReadsPastBuffer.
Proof.
  intros Hs Ht [Hlo Hhi].
  unfold tls1_3_process_handshake, tls_process_client_hello.
  apply Z.ltb_ge in Hlo. rewrite Hlo, Ht, Hs. cbn.
  unfold memcpy_from.
  destruct (4 + 32 <=? length data)%nat eqn:E; [| reflexivity].
  apply Nat.leb_le in E. unfold data_len in Hhi. lia.
Qed.

Lemma short_server_hello_reads_past_buffer c data :
  state c = TLS_STATE_SERVER_HELLO ->
  nth 0 data 0 = TLS_MSG_SERVER_HELLO ->
  4 <= data_len data < 36 ->
  tls1_3_process_handshake c data = ReadsPastBuffer.
Proof.
  intros Hs Ht [Hlo Hhi].
  unfold tls1_3_process_handshake, tls_process_server_hello.
  apply Z.ltb_ge in Hlo. rewrite Hlo, Ht, Hs. cbn.
  unfold memcpy_from.
  destruct (4 + 32 <=? length data)%nat eqn:E; [| reflexivity].
  apply Nat.leb_le in E. unfold data_len in Hhi. lia.
Qed.

(** C8 (defect of the code).  A CLIENT_HELLO of 4 bytes, or of 35, in
    state CLIENT_HELLO is not answered with [TLS_ERROR_INVALID_MESSAGE]:
    the handler only asks for 4 bytes and then reads the 32 bytes of the
    random past the end of the message.  The same holds for SERVER_HELLO
    in state SERVER_HELLO. *)
Theorem short_hello_is_not_rejected (a : aes_context_t) :
  let c0 := fresh_context a in
  let c1 := set_state (set_client_random c0 (repeat 7 32)) TLS_STATE_SERVER_HELLO in
  state c0 = TLS_STATE_CLIENT_HELLO
  /\ tls1_3_process_handshake c0 (handshake_message TLS_MSG_CLIENT_HELLO [])
     = ReadsPastBuffer
  /\ tls1_3_process_handshake c0
       (handshake_message TLS_MSG_CLIENT_HELLO (repeat 7 31))
     = ReadsPastBuffer
  /\ state c1 = TLS_STATE_SERVER_HELLO
  /\ tls1_3_process_handshake c1 (handshake_message TLS_MSG_SERVER_HELLO [])
     = ReadsPastBuffer
  /\ tls1_3_process_handshake c1
       (handshake_message TLS_MSG_SERVER_HELLO (repeat 9 31))
     = ReadsPastBuffer.
Proof.
  cbv zeta. repeat (split; [reflexivity |]). reflexivity.
Qed.

(** ** The record calls, case by case *)

Lemma encrypt_outside_application_data c plaintext :
  state c <> TLS_STATE_APPLICATION_DATA ->
  tls1_3_encrypt_data c plaintext
  = {| rr_status := TLS_ERROR_INVALID_STATE; rr_ctx := c;
       rr_output := []; rr_length := None |}.
Proof.
  intro Hs. unfold tls1_3_encrypt_data.
  rewrite (state_eqb_false _ _ Hs). reflexivity.
Qed.

Lemma decrypt_outside_application_data c ciphertext :
  state c <> TLS_STATE_APPLICATION_DATA ->
  tls1_3_decrypt_data c ciphertext
  = {| rr_status := TLS_ERROR_INVALID_STATE; rr_ctx := c;
       rr_output := []; rr_length := None |}.
Proof.
  intro Hs. unfold tls1_3_decrypt_data.
  rewrite (state_eqb_false _ _ Hs). reflexivity.
Qed.

Ltac record_cases :=
  cbn; repeat first [split | intro]; first [reflexivity | congruence].

(** What a record call does to the counter, the state and the reported
    length, whatever the provider answers. *)
Lemma encrypt_effect c plaintext :
  let r := tls1_3_encrypt_data c plaintext in
  state (rr_ctx r) = state c
  /\ (rr_status r = TLS_SUCCESS ->
      sequence_number (rr_ctx r) = uint64_succ (sequence_number c)
      /\ rr_length r = Some (length plaintext))
  /\ (rr_status r <> TLS_SUCCESS ->
      sequence_number (rr_ctx r) = sequence_number c /\ rr_length r = None).
Proof.
  unfold tls1_3_encrypt_data.
  destruct (negb (state_eqb (state c) TLS_STATE_APPLICATION_DATA)).
  { record_cases. }
  destruct (negb (length plaintext mod 16 =? 0)%nat).
  { record_cases. }
  destruct (encrypt_blocks _ _ _ _ _) as [[result p] out].
  destruct (negb (aes_succeeded result)); record_cases.
Qed.

Lemma decrypt_effect c ciphertext :
  let r := tls1_3_decrypt_data c ciphertext in
  state (rr_ctx r) = state c
  /\ (rr_status r = TLS_SUCCESS ->
      sequence_number (rr_ctx r) = uint64_succ (sequence_number c)
      /\ rr_length r = Some (length ciphertext))
  /\ (rr_status r <> TLS_SUCCESS ->
      sequence_number (rr_ctx r) = sequence_number c /\ rr_length r = None).
Proof.
  unfold tls1_3_decrypt_data.
  destruct (negb (state_eqb (state c) TLS_STATE_APPLICATION_DATA)).
  { record_cases. }
  destruct (negb (length ciphertext mod 16 =? 0)%nat).
  { record_cases. }
  destruct (decrypt_blocks _ _ _ _ _) as [[result p] out].
  destruct (negb (aes_succeeded result)); record_cases.
Qed.

Lemma process_handshake_keeps_counter c data r c' :
  tls1_3_process_handshake c data = Returns r c' ->
  sequence_number c' = sequence_number c.
Proof.
  intro H. apply process_handshake_returns in H.
  destruct H as [[-> _] | [(_ & _ & random & ->) | (_ & _ & random & ->)]];
    reflexivity.
Qed.

Lemma tls_result_eq_dec (r r' : tls_result_t) : {r = r'} + {r <> r'}.
Proof. decide equality. Qed.

(** ** Contexts the interface produces *)

Lemma before_finished_not_application_data s :
  before_finished s -> s <> TLS_STATE_APPLICATION_DATA.
Proof. intros [-> | [-> | ->]]; discriminate. Qed.

(** No call sequence takes a context past CHANGE_CIPHER_SPEC, so no record
    call on a reachable context succeeds and its counter is still 0. *)
Lemma reachable_stays_before_finished c :
  reachable c -> before_finished (state c) /\ sequence_number c = 0.
Proof.
  induction 1 as [m c Hinit | c c' Hreach [Hs Hn] Hstep].
  - unfold tls1_3_init in Hinit.
    destruct (_ || _) in Hinit; inversion Hinit; subst.
    split; [left; reflexivity | reflexivity].
  - destruct Hstep as [c data r c' Hp | c plaintext | c ciphertext].
    + apply process_handshake_returns in Hp.
      destruct Hp as [[-> _] | [(_ & _ & random & ->) | (_ & _ & random & ->)]].
      * split; assumption.
      * split; [right; left; reflexivity | exact Hn].
      * split; [right; right; reflexivity | exact Hn].
    + rewrite encrypt_outside_application_data
        by (apply before_finished_not_application_data; exact Hs).
      split; assumption.
    + rewrite decrypt_outside_application_data
        by (apply before_finished_not_application_data; exact Hs).
      split; assumption.
Qed.

Lemma uint64_succ_below_max n :
  0 <= n < 2 ^ 64 - 1 -> uint64_succ n = n + 1.
Proof. intro H. unfold uint64_succ. apply Z.mod_small. lia. Qed.

(** The context [tls1_3_cleanup] leaves is the zeroed one, whatever it
    was given. *)
Lemma cleanup_context c : fst (tls1_3_cleanup c) = zeroed_context.
Proof.
  unfold tls1_3_cleanup.
  destruct (aes_ctx c); cbn;
    destruct (sha256_ctx c); cbn;
    destruct (rsa_ctx c); cbn;
    destruct (ec_ctx c); reflexivity.
Qed.

(** ** The sequence number *)

(** C4.  [tls1_3_init] leaves the counter at 0.  Every reachable context
    has a counter below the largest 64-bit value, and on every context
    with such a counter a successful encrypt or decrypt call adds exactly
    1, a failed one leaves the counter alone, a handshake call leaves it
    alone, and no call of the interface makes it smaller. *)
Theorem sequence_number_counts_successful_records :
  (forall m, sequence_number (snd (tls1_3_init m)) = 0)
  /\ (forall c, reachable c -> 0 <= sequence_number c < 2 ^ 64 - 1)
  /\ (forall c, 0 <= sequence_number c < 2 ^ 64 - 1 ->
       (forall plaintext,
           let r := tls1_3_encrypt_data c plaintext in
           (rr_status r = TLS_SUCCESS ->
            sequence_number (rr_ctx r) = sequence_number c + 1)
           /\ (rr_status r <> TLS_SUCCESS ->
               sequence_number (rr_ctx r) = sequence_number c))
       /\ (forall ciphertext,
             let r := tls1_3_decrypt_data c ciphertext in
             (rr_status r = TLS_SUCCESS ->
              sequence_number (rr_ctx r) = sequence_number c + 1)
             /\ (rr_status r <> TLS_SUCCESS ->
                 sequence_number (rr_ctx r) = sequence_number c))
       /\ (forall data r c',
             tls1_3_process_handshake c data = Returns r c' ->
             sequence_number c' = sequence_number c)
       /\ (forall c', api_step c c' -> sequence_number c <= sequence_number c')).
Proof.
  split; [| split].
  - intro m. unfold tls1_3_init. destruct (_ || _); cbn [snd].
    + rewrite cleanup_context. reflexivity.
    + reflexivity.
  - intros c Hreach. apply reachable_stays_before_finished in Hreach.
    destruct Hreach as [_ ->]. lia.
  - intros c Hrange.
    assert (Henc : forall plaintext,
               let r := tls1_3_encrypt_data c plaintext in
               (rr_status r = TLS_SUCCESS ->
                sequence_number (rr_ctx r) = sequence_number c + 1)
               /\ (rr_status r <> TLS_SUCCESS ->
                   sequence_number (rr_ctx r) = sequence_number c)).
    { intro plaintext. cbv zeta.
      destruct (encrypt_effect c plaintext) as (_ & Hok & Hfail).
      split; intro H.
      - rewrite <- (uint64_succ_below_max _ Hrange). apply (Hok H).
      - apply (Hfail H). }
    assert (Hdec : forall ciphertext,
               let r := tls1_3_decrypt_data c ciphertext in
               (rr_status r = TLS_SUCCESS ->
                sequence_number (rr_ctx r) = sequence_number c + 1)
               /\ (rr_status r <> TLS_SUCCESS ->
                   sequence_number (rr_ctx r) = sequence_number c)).
    { intro ciphertext. cbv zeta.
      destruct (decrypt_effect c ciphertext) as (_ & Hok & Hfail).
      split; intro H.
      - rewrite <- (uint64_succ_below_max _ Hrange). apply (Hok H).
      - apply (Hfail H). }
    split; [exact Henc |]. split; [exact Hdec |].
    split; [intros data r c'; apply process_handshake_keeps_counter |].
    intros c' Hstep.
    destruct Hstep as [c data r c' Hp | c plaintext | c ciphertext].
    + rewrite (process_handshake_keeps_counter _ _ _ _ Hp). lia.
    + destruct (Henc plaintext) as [Hok Hfail].
      destruct (tls_result_eq_dec (rr_status (tls1_3_encrypt_data c plaintext))
                  TLS_SUCCESS) as [E | E].
      * rewrite (Hok E). lia.
      * rewrite (Hfail E). lia.
    + destruct (Hdec ciphertext) as [Hok Hfail].
      destruct (tls_result_eq_dec (rr_status (tls1_3_decrypt_data c ciphertext))
                  TLS_SUCCESS) as [E | E].
      * rewrite (Hok E). lia.
      * rewrite (Hfail E). lia.
Qed.

(** ** The block loops *)

Lemma aligned_length n : (n mod 16 = 0 -> n / 16 * 16 = n)%nat.
Proof.
  intro H. symmetry. rewrite Nat.mul_comm.
  apply Nat.Div0.div_exact. exact H.
Qed.

(** When the loop runs to its end on an AES object, every block added 16
    bytes to the output and the handle is still there. *)
Lemma encrypt_blocks_length plaintext n :
  forall i a out r p' out',
    encrypt_blocks n i (Some a) plaintext out = (r, p', out') ->
    aes_succeeded r = true ->
    (length out' = length out + n * 16)%nat /\ p' <> None.
Proof.
  induction n as [| n IH]; intros i a out r p' out' Hloop Hr.
  - inversion Hloop; subst. split; [cbn; lia | discriminate].
  - cbn [encrypt_blocks aes_encrypt_block_at] in Hloop.
    pose proof (aes_encrypt_block_output a (block_at plaintext i)) as Hlen.
    destruct (aes_encrypt_block a (block_at plaintext i)) as [[r1 a1] o].
    cbn [snd] in Hlen.
    destruct (aes_succeeded r1) eqn:E1; cbn [negb] in Hloop.
    + destruct (IH _ _ _ _ _ _ Hloop Hr) as [Hl Hp].
      split; [| exact Hp]. rewrite Hl, length_app, Hlen. lia.
    + inversion Hloop; subst. congruence.
Qed.

Lemma decrypt_blocks_length ciphertext n :
  forall i a out r p' out',
    decrypt_blocks n i (Some a) ciphertext out = (r, p', out') ->
    aes_succeeded r = true ->
    (length out' = length out + n * 16)%nat /\ p' <> None.
Proof.
  induction n as [| n IH]; intros i a out r p' out' Hloop Hr.
  - inversion Hloop; subst. split; [cbn; lia | discriminate].
  - cbn [decrypt_blocks aes_decrypt_block_at] in Hloop.
    pose proof (aes_decrypt_block_output a (block_at ciphertext i)) as Hlen.
    destruct (aes_decrypt_block a (block_at ciphertext i)) as [[r1 a1] o].
    cbn [snd] in Hlen.
    destruct (aes_succeeded r1) eqn:E1; cbn [negb] in Hloop.
    + destruct (IH _ _ _ _ _ _ Hloop Hr) as [Hl Hp].
      split; [| exact Hp]. rewrite Hl, length_app, Hlen. lia.
    + inversion Hloop; subst. congruence.
Qed.

(** ** Lengths reported by the record calls *)

Lemma encrypt_output_length c plaintext :
  rr_status (tls1_3_encrypt_data c plaintext) = TLS_SUCCESS ->
  aes_ctx c <> None ->
  length (rr_output (tls1_3_encrypt_data c plaintext)) = length plaintext.
Proof.
  intros Hok Haes. revert Hok. unfold tls1_3_encrypt_data.
  destruct (negb (state_eqb (state c) TLS_STATE_APPLICATION_DATA));
    [discriminate |].
  destruct (length plaintext mod 16 =? 0)%nat eqn:Hmod; cbn [negb];
    [| discriminate].
  apply Nat.eqb_eq in Hmod.
  destruct (aes_ctx c) as [a |]; [| contradiction].
  destruct (encrypt_blocks _ _ _ _ _) as [[result p] out] eqn:Hloop.
  destruct (aes_succeeded result) eqn:Hr; cbn [negb]; [| discriminate].
  intros _. cbn [rr_output].
  destruct (encrypt_blocks_length _ _ _ _ _ _ _ _ Hloop Hr) as [Hl _].
  rewrite Hl. cbn [length]. rewrite (aligned_length _ Hmod). reflexivity.
Qed.

Lemma decrypt_output_length c ciphertext :
  rr_status (tls1_3_decrypt_data c ciphertext) = TLS_SUCCESS ->
  aes_ctx c <> None ->
  length (rr_output (tls1_3_decrypt_data c ciphertext)) = length ciphertext.
Proof.
  intros Hok Haes. revert Hok. unfold tls1_3_decrypt_data.
  destruct (negb (state_eqb (state c) TLS_STATE_APPLICATION_DATA));
    [discriminate |].
  destruct (length ciphertext mod 16 =? 0)%nat eqn:Hmod; cbn [negb];
    [| discriminate].
  apply Nat.eqb_eq in Hmod.
  destruct (aes_ctx c) as [a |]; [| contradiction].
  destruct (decrypt_blocks _ _ _ _ _) as [[result p] out] eqn:Hloop.
  destruct (aes_succeeded result) eqn:Hr; cbn [negb]; [| discriminate].
  intros _. cbn [rr_output].
  destruct (decrypt_blocks_length _ _ _ _ _ _ _ _ Hloop Hr) as [Hl _].
  rewrite Hl. cbn [length]. rewrite (aligned_length _ Hmod). reflexivity.
Qed.

(** C10.  A successful encrypt call reports the plaintext length as the
    ciphertext length, and a successful decrypt call reports the
    ciphertext length as the plaintext length; with an AES handle in the
    context that is also the number of bytes written, so nothing such as
    a tag follows the blocks. *)
Theorem record_length_is_input_length c buf :
  (rr_status (tls1_3_encrypt_data c buf) = TLS_SUCCESS ->
   rr_length (tls1_3_encrypt_data c buf) = Some (length buf)
   /\ (aes_ctx c <> None ->
       length (rr_output (tls1_3_encrypt_data c buf)) = length buf))
  /\ (rr_status (tls1_3_decrypt_data c buf) = TLS_SUCCESS ->
      rr_length (tls1_3_decrypt_data c buf) = Some (length buf)
      /\ (aes_ctx c <> None ->
          length (rr_output (tls1_3_decrypt_data c buf)) = length buf)).
Proof.
  split; intro Hok.
  - split; [apply (encrypt_effect c buf); exact Hok |].
    apply encrypt_output_length. exact Hok.
  - split; [apply (decrypt_effect c buf); exact Hok |].
    apply decrypt_output_length. exact Hok.
Qed.

(** ** Cleanup *)

(** C9.  Whatever context [tls1_3_cleanup] is given, with any of its four
    handles NULL or not, it leaves the randoms, the master secret and the
    four traffic keys and IVs all zero and every handle NULL; it releases
    each handle that was not NULL once and no other; a second call
    releases nothing and leaves the same zeroed context; and a
    [tls1_3_init] that fails has already left that zeroed context. *)
Theorem cleanup_zeroes_key_material c :
  let c' := fst (tls1_3_cleanup c) in
  client_random c' = zeros 32 /\ server_random c' = zeros 32
  /\ master_secret c' = zeros 48
  /\ client_write_key c' = zeros 32 /\ server_write_key c' = zeros 32
  /\ client_write_iv c' = zeros 12 /\ server_write_iv c' = zeros 12
  /\ aes_ctx c' = None
  /\ sha256_ctx c' = false /\ rsa_ctx c' = false /\ ec_ctx c' = false
  /\ snd (tls1_3_cleanup c)
     = (match aes_ctx c with Some _ => [AES_HANDLE] | None => [] end)
       ++ (if sha256_ctx c then [SHA256_HANDLE] else [])
       ++ (if rsa_ctx c then [RSA_HANDLE] else [])
       ++ (if ec_ctx c then [EC_HANDLE] else [])
  /\ tls1_3_cleanup c' = (c', [])
  /\ (forall m,
        tls1_3_init m
        = (TLS_SUCCESS,
           {| state := TLS_STATE_CLIENT_HELLO;
              client_random := zeros 32; server_random := zeros 32;
              master_secret := zeros 48;
              client_write_key := zeros 32; server_write_key := zeros 32;
              client_write_iv := zeros 12; server_write_iv := zeros 12;
              aes_ctx := malloc_aes m; sha256_ctx := malloc_sha256 m;
              rsa_ctx := malloc_rsa m; ec_ctx := malloc_ec m;
              sequence_number := 0; handshake_hash := zeros 32 |})
        \/ tls1_3_init m = (TLS_ERROR_MEMORY_ALLOCATION, c')).
Proof.
  cbv zeta. rewrite cleanup_context.
  repeat (split; [reflexivity |]).
  split.
  { unfold tls1_3_cleanup.
    destruct (aes_ctx c); cbn;
      destruct (sha256_ctx c); cbn;
      destruct (rsa_ctx c); cbn;
      destruct (ec_ctx c); reflexivity. }
  split; [reflexivity |].
  intro m. unfold tls1_3_init.
  destruct (_ || _).
  - right. rewrite cleanup_context. reflexivity.
  - left. reflexivity.
Qed.

(** ** Failure while arming the cipher *)

(** The CHANGE_CIPHER_SPEC handler taken alone, on a buffer whose first
    byte is the flag 1: when [aes_init] does not succeed, the handler
    returns [TLS_ERROR_CRYPTO_FAILURE] with the derived secrets written
    and the state as it was.  [tls1_3_process_handshake] hands the handler
    buffers whose first byte is 20 only, so no call of the interface gets
    here. *)
Lemma change_cipher_spec_arming_failure c data :
  state c = TLS_STATE_CHANGE_CIPHER_SPEC ->
  1 <= data_len data ->
  nth 0 data 0 = 1 ->
  let c2 := snd (tls_derive_traffic_keys (with_master_secret c)) in
  let armed := aes_init_at (aes_ctx c2) (client_write_key c2) AES_KEY_256 in
  fst armed <> AES_SUCCESS ->
  tls_process_change_cipher_spec c data
  = Returns TLS_ERROR_CRYPTO_FAILURE (set_aes_ctx c2 (snd armed))
  /\ state (set_aes_ctx c2 (snd armed)) = TLS_STATE_CHANGE_CIPHER_SPEC.
Proof.
  intros Hs Hlen Hflag c2 armed Hfail.
  split; [| exact Hs].
  subst armed c2. revert Hfail.
  unfold tls_process_change_cipher_spec.
  rewrite Hs, Hflag. cbn [state_eqb state_code Z.eqb Pos.eqb negb].
  replace (data_len data <? 1) with false by (symmetry; apply Z.ltb_ge; lia).
  cbn [orb]. cbv zeta.
  change (tls_derive_master_secret c (zeros 32))
    with (Some (TLS_SUCCESS, with_master_secret c)).
  set (c1 := with_master_secret c).
  cbn [tls_succeeded negb].
  change (tls_derive_traffic_keys c1)
    with (TLS_SUCCESS, snd (tls_derive_traffic_keys c1)).
  set (c2 := snd (tls_derive_traffic_keys c1)).
  cbn [tls_succeeded negb snd].
  destruct (aes_init_at (aes_ctx c2) (client_write_key c2) AES_KEY_256)
    as [result p].
  cbn [fst snd]. intro Hfail.
  destruct result; cbn [aes_succeeded negb]; try reflexivity.
  exfalso. apply Hfail. reflexivity.
Qed.

(** A context whose state is ERROR stays in ERROR under every handshake,
    encrypt and decrypt call. *)
Lemma error_state_is_kept c c' :
  state c = TLS_STATE_ERROR -> api_step c c' -> state c' = TLS_STATE_ERROR.
Proof.
  intros Hs Hstep.
  destruct Hstep as [c data r c' Hp | c plaintext | c ciphertext].
  - apply process_handshake_returns in Hp.
    destruct Hp as [[-> _] | [(Hc & _) | (Hc & _)]];
      [exact Hs | congruence | congruence].
  - rewrite <- Hs. apply (encrypt_effect c plaintext).
  - rewrite <- Hs. apply (decrypt_effect c ciphertext).
Qed.

(** ** Decryption of altered ciphertext *)







(** ** Encrypt, then decrypt *)

Lemma firstn_then_firstn (a b : nat) (l : bytes) :
  firstn a l ++ firstn b (skipn a l) = firstn (a + b) l.
Proof.
  revert l. induction a as [| a IH]; intro l.
  - reflexivity.
  - destruct l as [| x l]; cbn.
    + rewrite firstn_nil. reflexivity.
    + f_equal. apply IH.
Qed.

Lemma block_at_length buf i :
  (S i * 16 <= length buf)%nat -> length (block_at buf i) = 16%nat.
Proof.
  intro H. unfold block_at. rewrite length_firstn, length_skipn. lia.
Qed.

Lemma block_at_first (b rest : bytes) :
  length b = 16%nat -> block_at (b ++ rest) 0 = b.
Proof.
  intro H. unfold block_at. cbn [Nat.mul skipn].
  rewrite firstn_app, H, Nat.sub_diag, firstn_O, app_nil_r.
  apply firstn_all2. lia.
Qed.

Lemma block_at_next (b rest : bytes) j :
  length b = 16%nat -> block_at (b ++ rest) (S j) = block_at rest j.
Proof.
  intro H. unfold block_at.
  rewrite skipn_app, H.
  rewrite skipn_all2 by lia.
  replace (S j * 16 - 16)%nat with (j * 16)%nat by lia.
  reflexivity.
Qed.

Section RoundTrip.

(** The contexts of the provider that hold the installed key, and the
    assumption on the provider: on such a context a 16-byte block is
    encrypted without error, the context still holds the key, and block
    decryption on any context holding the key gives the block back. *)
Variable holds_key : aes_context_t -> Prop.

Hypothesis decrypt_inverts_encrypt :
  forall a b,
    holds_key a -> length b = 16%nat ->
    exists a' ct,
      aes_encrypt_block a b = (AES_SUCCESS, a', ct)
      /\ holds_key a'
      /\ forall a2, holds_key a2 ->
           exists a3, aes_decrypt_block a2 ct = (AES_SUCCESS, a3, b)
                      /\ holds_key a3.

Lemma encrypt_blocks_invertible plaintext n :
  forall i a out,
    holds_key a ->
    ((i + n) * 16 <= length plaintext)%nat ->
    exists a' cs,
      encrypt_blocks n i (Some a) plaintext out = (AES_SUCCESS, Some a', out ++ cs)
      /\ holds_key a'
      /\ length cs = (n * 16)%nat
      /\ blocks_decrypt_to holds_key cs plaintext i n.
Proof.
  induction n as [| n IH]; intros i a out Hkey Hlen.
  - exists a, []. rewrite app_nil_r.
    repeat split; [assumption |]. intros j a2 Hj. lia.
  - assert (Hb : length (block_at plaintext i) = 16%nat)
      by (apply block_at_length; lia).
    destruct (decrypt_inverts_encrypt a _ Hkey Hb)
      as (a1 & c0 & Henc & Hkey1 & Hdec).
    assert (Hc0 : length c0 = 16%nat).
    { pose proof (aes_encrypt_block_output a (block_at plaintext i)) as H.
      rewrite Henc in H. exact H. }
    destruct (IH (S i) a1 (out ++ c0) Hkey1 ltac:(lia))
      as (a' & cs & Hloop & Hkey' & Hcs & Hinv).
    exists a', (c0 ++ cs).
    split.
    { cbn [encrypt_blocks aes_encrypt_block_at]. rewrite Henc.
      cbn [aes_succeeded negb]. rewrite Hloop, app_assoc. reflexivity. }
    split; [exact Hkey' |].
    split; [rewrite length_app; lia |].
    intros j a2 Hj Hkey2. destruct j as [| j].
    + rewrite block_at_first by exact Hc0.
      rewrite Nat.add_0_r. apply Hdec. exact Hkey2.
    + rewrite block_at_next by exact Hc0.
      replace (i + S j)%nat with (S i + j)%nat by lia.
      apply Hinv; [lia | exact Hkey2].
Qed.

Lemma decrypt_blocks_recover ciphertext plaintext n :
  forall i k a out,
    holds_key a ->
    (forall j a2,
        (j < n)%nat -> holds_key a2 ->
        exists a3,
          aes_decrypt_block a2 (block_at ciphertext (i + j))
          = (AES_SUCCESS, a3, block_at plaintext (k + j))
          /\ holds_key a3) ->
    exists a',
      decrypt_blocks n i (Some a) ciphertext out
      = (AES_SUCCESS, Some a',
         out ++ firstn (n * 16) (skipn (k * 16) plaintext))
      /\ holds_key a'.
Proof.
  induction n as [| n IH]; intros i k a out Hkey Hinv.
  - exists a. cbn. rewrite app_nil_r. split; [reflexivity | assumption].
  - destruct (Hinv 0%nat a ltac:(lia) Hkey) as (a1 & Hdec & Hkey1).
    rewrite !Nat.add_0_r in Hdec.
    destruct (IH (S i) (S k) a1 (out ++ block_at plaintext k) Hkey1)
      as (a' & Hloop & Hkey').
    { intros j a2 Hj Hkey2.
      destruct (Hinv (S j) a2 ltac:(lia) Hkey2) as (a3 & H3 & Hk3).
      exists a3. split; [| exact Hk3].
      replace (S i + j)%nat with (i + S j)%nat by lia.
      replace (S k + j)%nat with (k + S j)%nat by lia.
      exact H3. }
    exists a'. split; [| exact Hkey'].
    cbn [decrypt_blocks aes_decrypt_block_at]. rewrite Hdec.
    cbn [aes_succeeded negb]. rewrite Hloop. f_equal.
    rewrite <- app_assoc. f_equal.
    unfold block_at.
    replace (S k * 16)%nat with (16 + k * 16)%nat by lia.
    rewrite <- skipn_skipn.
    replace (S n * 16)%nat with (16 + n * 16)%nat by lia.
    apply firstn_then_firstn.
Qed.

(** C5.  On a context in state APPLICATION_DATA whose AES context holds
    the installed key, for a provider whose block decryption inverts its
    block encryption under that key, encrypting a plaintext whose length
    is a positive multiple of 16 succeeds, and decrypting the ciphertext
    on the context the encrypt call left succeeds and returns the
    plaintext. *)
Theorem decrypt_after_encrypt_returns_plaintext c a plaintext :
  state c = TLS_STATE_APPLICATION_DATA ->
  aes_ctx c = Some a ->
  holds_key a ->
  (0 < length plaintext)%nat ->
  (length plaintext mod 16 = 0)%nat ->
  let e := tls1_3_encrypt_data c plaintext in
  let d := tls1_3_decrypt_data (rr_ctx e) (rr_output e) in
  rr_status e = TLS_SUCCESS
  /\ rr_status d = TLS_SUCCESS
  /\ rr_output d = plaintext.
Proof.
  intros Hs Haes Hkey Hpos Hmod. cbv zeta.
  pose proof (aligned_length _ Hmod) as Hn.
  destruct (encrypt_blocks_invertible plaintext (length plaintext / 16)
              0%nat a [] Hkey ltac:(lia))
    as (a1 & cs & Hloop & Hkey1 & Hcs & Hinv).
  cbn [app] in Hloop.
  assert (He : tls1_3_encrypt_data c plaintext
               = {| rr_status := TLS_SUCCESS;
                    rr_ctx := set_sequence_number (set_aes_ctx c (Some a1))
                                (uint64_succ (sequence_number c));
                    rr_output := cs;
                    rr_length := Some (length plaintext) |}).
  { unfold tls1_3_encrypt_data.
    rewrite Hs, Hmod, Haes, Hloop. reflexivity. }
  rewrite He. cbn [rr_status rr_ctx rr_output].
  split; [reflexivity |].
  destruct (decrypt_blocks_recover cs plaintext (length plaintext / 16)
              0%nat 0%nat a1 [] Hkey1 Hinv)
    as (a2 & Hdloop & _).
  cbn [app Nat.mul skipn] in Hdloop.
  rewrite Hn, firstn_all in Hdloop.
  unfold tls1_3_decrypt_data.
  cbn [state set_sequence_number set_aes_ctx aes_ctx].
  rewrite Hs, Hcs, Nat.Div0.mod_mul, Nat.div_mul by lia.
  cbn [state_eqb state_code Z.eqb Pos.eqb negb Nat.eqb].
  rewrite Hdloop. cbn. split; reflexivity.
Qed.

End RoundTrip.

End Properties.

(** * Concrete runs *)

Lemma sixteen_of_block b : length b = 16%nat -> sixteen b = b.
Proof.
  intro H. unfold sixteen.
  rewrite firstn_app, H, Nat.sub_diag, firstn_O, app_nil_r.
  apply firstn_all2. lia.
Qed.

Lemma xor_block_involutive key b :
  length b = 16%nat -> xor_block key (xor_block key b) = b.
Proof.
  intro H. unfold xor_block.
  rewrite (sixteen_of_block (map _ _)) by (rewrite length_map; apply sixteen_length).
  rewrite (sixteen_of_block b H), map_map.
  rewrite <- (map_id b) at 2. apply map_ext. intro x.
  rewrite Z.lxor_assoc, Z.lxor_nilpotent. apply Z.lxor_0_r.
Qed.

(** The xor provider inverts its own block encryption under one key. *)
Lemma xor_provider_inverts key :
  forall (a : @aes_context_t xor_provider) b,
    a = key -> length b = 16%nat ->
    exists a' ct,
      @aes_encrypt_block xor_provider a b = (AES_SUCCESS, a', ct)
      /\ a' = key
      /\ forall a2, a2 = key ->
           exists a3, @aes_decrypt_block xor_provider a2 ct = (AES_SUCCESS, a3, b)
                      /\ a3 = key.
Proof.
  intros a b -> Hb. exists key, (xor_block key b).
  split; [reflexivity |]. split; [reflexivity |].
  intros a2 ->. exists key. split; [| reflexivity].
  change (@aes_decrypt_block xor_provider key (xor_block key b))
    with (AES_SUCCESS, key, xor_block key (xor_block key b)).
  rewrite (xor_block_involutive key b Hb). reflexivity.
Qed.







(** C4, instance: on the xor session one successful encrypt call takes the
    counter from 0 to 1, and a decrypt call on 15 bytes fails and leaves
    it. *)
Lemma sequence_number_counts_successful_records_witness :
  sequence_number xor_session = 0
  /\ rr_status (tls1_3_encrypt_data xor_session (repeat 65 16)) = TLS_SUCCESS
  /\ sequence_number (rr_ctx (tls1_3_encrypt_data xor_session (repeat 65 16)))
     = sequence_number xor_session + 1
  /\ rr_status (tls1_3_decrypt_data xor_session (repeat 65 15)) <> TLS_SUCCESS
  /\ sequence_number (rr_ctx (tls1_3_decrypt_data xor_session (repeat 65 15)))
     = sequence_number xor_session.
Proof.
  assert (Hrange : 0 <= sequence_number xor_session < 2 ^ 64 - 1)
    by (vm_compute; split; [discriminate | reflexivity]).
  pose proof (proj2 (proj2 (@sequence_number_counts_successful_records
                               xor_provider)) xor_session Hrange)
    as (Henc & Hdec & _).
  split; [reflexivity |].
  split; [reflexivity |].
  split; [apply (Henc (repeat 65 16)); reflexivity |].
  split; [vm_compute; discriminate |].
  apply (Hdec (repeat 65 15)). vm_compute. discriminate.
Defined.

(** C10, instance: 32 bytes in, 32 bytes reported and written, in both
    directions. *)
Lemma record_length_is_input_length_witness :
  rr_status (tls1_3_encrypt_data xor_session (repeat 65 32)) = TLS_SUCCESS
  /\ rr_length (tls1_3_encrypt_data xor_session (repeat 65 32)) = Some 32%nat
  /\ length (rr_output (tls1_3_encrypt_data xor_session (repeat 65 32))) = 32%nat
  /\ rr_status (tls1_3_decrypt_data xor_session (repeat 65 32)) = TLS_SUCCESS
  /\ rr_length (tls1_3_decrypt_data xor_session (repeat 65 32)) = Some 32%nat
  /\ length (rr_output (tls1_3_decrypt_data xor_session (repeat 65 32))) = 32%nat.
Proof.
  pose proof (@record_length_is_input_length xor_provider xor_session
                (repeat 65 32)) as [Henc Hdec].
  assert (Haes : aes_ctx xor_session <> None) by (vm_compute; discriminate).
  destruct (Henc eq_refl) as [He1 He2].
  destruct (Hdec eq_refl) as [Hd1 Hd2].
  split; [reflexivity |].
  split; [exact He1 |].
  split; [exact (He2 Haes) |].
  split; [reflexivity |].
  split; [exact Hd1 |].
  exact (Hd2 Haes).
Defined.

(** C5, instance: two blocks through the xor session and back. *)
Lemma decrypt_after_encrypt_returns_plaintext_witness :
  let plaintext := repeat 65 32 in
  let e := tls1_3_encrypt_data xor_session plaintext in
  let d := tls1_3_decrypt_data (rr_ctx e) (rr_output e) in
  state xor_session = TLS_STATE_APPLICATION_DATA
  /\ rr_status e = TLS_SUCCESS
  /\ rr_status d = TLS_SUCCESS
  /\ rr_output d = plaintext.
Proof.
  cbv zeta. split; [reflexivity |].
  apply (@decrypt_after_encrypt_returns_plaintext xor_provider
           (fun a => a = client_write_key xor_session)
           (xor_provider_inverts (client_write_key xor_session))
           xor_session (client_write_key xor_session) (repeat 65 32)).
  - reflexivity.
  - reflexivity.
  - reflexivity.
  - cbn. lia.
  - reflexivity.
Defined.

(** * Further properties of the handshake *)

Section Handshake.

Context {provider : AesProvider}.

(** X1.  A call of [tls1_3_process_handshake] that returns either rejects
    the message and leaves the whole context as it was, or accepts it and
    moves the state forward by exactly one step; in both cases the master
    secret, the traffic keys and IVs, the AES handle, the sequence number
    and the handshake hash are the ones before the call. *)
Theorem handshake_call_rejects_or_advances c data r c' :
  tls1_3_process_handshake c data = Returns r c' ->
  ((r <> TLS_SUCCESS /\ c' = c)
   \/ (r = TLS_SUCCESS /\ state_code (state c') = state_code (state c) + 1))
  /\ master_secret c' = master_secret c
  /\ client_write_key c' = client_write_key c
  /\ server_write_key c' = server_write_key c
  /\ client_write_iv c' = client_write_iv c
  /\ server_write_iv c' = server_write_iv c
  /\ aes_ctx c' = aes_ctx c
  /\ sequence_number c' = sequence_number c
  /\ handshake_hash c' = handshake_hash c.
Proof.
  intro H. apply process_handshake_returns in H.
  destruct H as [[-> Hr] | [(Hs & -> & random & ->) | (Hs & -> & random & ->)]].
  - split; [left; split; [exact Hr | reflexivity] |].
    repeat (split; [reflexivity |]). reflexivity.
  - split; [right; split; [reflexivity | cbn; rewrite Hs; reflexivity] |].
    repeat (split; [reflexivity |]). reflexivity.
  - split; [right; split; [reflexivity | cbn; rewrite Hs; reflexivity] |].
    repeat (split; [reflexivity |]). reflexivity.
Qed.



(** X3.  The three length bytes of the header and everything behind byte
    35 play no part: two messages of at least 36 bytes with the same type
    byte and the same bytes 4 to 35 get the same answer in every
    context. *)
Theorem process_handshake_reads_type_and_random_only c data data' :
  36 <= data_len data ->
  36 <= data_len data' ->
  nth 0 data 0 = nth 0 data' 0 ->
  firstn 32 (skipn 4 data) = firstn 32 (skipn 4 data') ->
  tls1_3_process_handshake c data = tls1_3_process_handshake c data'.
Proof.
  intros Hl Hl' Ht Hr.
  assert (Hm : memcpy_from data 4 32 = memcpy_from data' 4 32).
  { unfold memcpy_from, data_len in *.
    replace (4 + 32 <=? length data)%nat with true
      by (symmetry; apply Nat.leb_le; lia).
    replace (4 + 32 <=? length data')%nat with true
      by (symmetry; apply Nat.leb_le; lia).
    rewrite Hr. reflexivity. }
  unfold tls1_3_process_handshake, tls_process_client_hello,
    tls_process_server_hello, tls_process_change_cipher_spec,
    tls_process_finished.
  replace (data_len data <? 4) with false by (symmetry; apply Z.ltb_ge; lia).
  replace (data_len data' <? 4) with false by (symmetry; apply Z.ltb_ge; lia).
  replace (data_len data <? 1) with false by (symmetry; apply Z.ltb_ge; lia).
  replace (data_len data' <? 1) with false by (symmetry; apply Z.ltb_ge; lia).
  replace (data_len data <? 32) with false by (symmetry; apply Z.ltb_ge; lia).
  replace (data_len data' <? 32) with false by (symmetry; apply Z.ltb_ge; lia).
  rewrite Hm, Ht. reflexivity.
Qed.

End Handshake.

Section Sessions.

Context {provider : AesProvider}.


Lemma init_handshake_pending m c :
  tls1_3_init m = (TLS_SUCCESS, c) -> handshake_pending c.
Proof.
  unfold tls1_3_init. cbn [aes_ctx set_handles set_aes_ctx].
  destruct (malloc_aes m) as [a |]; cbn [orb]; [| discriminate].
  destruct (_ || _); [discriminate |].
  intro H; inversion H; subst. unfold handshake_pending. cbn.
  split; [left; reflexivity |].
  repeat (split; [reflexivity |]). discriminate.
Qed.

Lemma api_step_handshake_pending c c' :
  handshake_pending c -> api_step c c' -> handshake_pending c'.
Proof.
  intros Hc Hstep.
  destruct Hstep as [c data r c' Hp | c plaintext | c ciphertext].
  - apply process_handshake_returns in Hp.
    destruct Hc as (Hs & Hrest).
    destruct Hp as [[-> _] | [(_ & _ & random & ->) | (_ & _ & random & ->)]].
    + split; assumption.
    + split; [right; left; reflexivity | exact Hrest].
    + split; [right; right; reflexivity | exact Hrest].
  - rewrite encrypt_outside_application_data; [exact Hc |].
    apply before_finished_not_application_data. apply Hc.
  - rewrite decrypt_outside_application_data; [exact Hc |].
    apply before_finished_not_application_data. apply Hc.
Qed.

(** X4.  No sequence of handshake, encrypt and decrypt calls on an
    initialized context completes the handshake: every context so reached
    is in one of the first three states, its master secret and traffic
    keys and IVs are still all zero, its sequence number is 0, and every
    encrypt or decrypt call on it is answered with
    [TLS_ERROR_INVALID_STATE], with nothing written. *)
Theorem interface_never_completes_the_handshake c :
  reachable c ->
  handshake_pending c
  /\ (forall buf,
        rr_status (tls1_3_encrypt_data c buf) = TLS_ERROR_INVALID_STATE
        /\ rr_output (tls1_3_encrypt_data c buf) = []
        /\ rr_status (tls1_3_decrypt_data c buf) = TLS_ERROR_INVALID_STATE
        /\ rr_output (tls1_3_decrypt_data c buf) = []).
Proof.
  intro Hreach.
  assert (Hp : handshake_pending c).
  { induction Hreach as [m c Hinit | c c' _ IH Hstep].
    - apply (init_handshake_pending m). exact Hinit.
    - apply (api_step_handshake_pending c); assumption. }
  split; [exact Hp |].
  intro buf.
  assert (Hs : state c <> TLS_STATE_APPLICATION_DATA)
    by (apply before_finished_not_application_data; apply Hp).
  rewrite (encrypt_outside_application_data c buf Hs).
  rewrite (decrypt_outside_application_data c buf Hs).
  repeat split.
Qed.

(** ** Key derivation *)

Lemma land_255_is_mod x : Z.land x 255 = x mod 256.
Proof. change 255 with (Z.ones 8). rewrite Z.land_ones by lia. reflexivity. Qed.

Lemma land_255_plus x k : Z.land (x + k) 255 = (Z.land x 255 + k) mod 256.
Proof.
  rewrite !land_255_is_mod. rewrite Zplus_mod_idemp_l. reflexivity.
Qed.

Lemma byte_plus_128_is_xor y :
  0 <= y < 256 -> (y + 128) mod 256 = Z.lxor y 128.
Proof.
  intro Hy.
  assert (Hall : forallb (fun n => (Z.of_nat n + 128) mod 256
                                   =? Z.lxor (Z.of_nat n) 128)
                   (seq 0 256) = true) by (vm_compute; reflexivity).
  rewrite forallb_forall in Hall.
  specialize (Hall (Z.to_nat y)).
  rewrite Z2Nat.id in Hall by lia.
  apply Z.eqb_eq. apply Hall. apply in_seq. lia.
Qed.

Lemma land_255_plus_128 x : Z.land (x + 128) 255 = Z.lxor (Z.land x 255) 128.
Proof.
  rewrite land_255_plus. apply byte_plus_128_is_xor.
  rewrite land_255_is_mod. apply Z.mod_pos_bound. lia.
Qed.

Lemma land_255_byte x : 0 <= Z.land x 255 < 256.
Proof. rewrite land_255_is_mod. apply Z.mod_pos_bound. lia. Qed.

Lemma tabulate_bytes n f :
  Forall (fun b => 0 <= b < 256) (tabulate n (fun i => Z.land (f i) 255)).
Proof.
  unfold tabulate. apply Forall_forall. intros b Hb.
  apply in_map_iff in Hb. destruct Hb as (i & <- & _). apply land_255_byte.
Qed.

Lemma tabulate_length n f : length (tabulate n f) = n.
Proof. unfold tabulate. rewrite length_map, length_seq. reflexivity. Qed.

(** X5.  Whatever master secret the context holds, the four values
    [tls_derive_traffic_keys] writes are byte arrays of 32, 32, 12 and 12
    bytes that determine one another: the server key is the client key
    with the top bit of every byte flipped, the server IV is the client IV
    with the top bit of every byte flipped, and the client IV is the first
    12 bytes of the client key plus 64 modulo 256. *)
Theorem traffic_keys_determine_one_another c :
  let c' := snd (tls_derive_traffic_keys c) in
  fst (tls_derive_traffic_keys c) = TLS_SUCCESS
  /\ length (client_write_key c') = 32%nat
  /\ length (server_write_key c') = 32%nat
  /\ length (client_write_iv c') = 12%nat
  /\ length (server_write_iv c') = 12%nat
  /\ Forall (fun b => 0 <= b < 256)
       (client_write_key c' ++ server_write_key c'
        ++ client_write_iv c' ++ server_write_iv c')
  /\ server_write_key c' = map (fun b => Z.lxor b 128) (client_write_key c')
  /\ server_write_iv c' = map (fun b => Z.lxor b 128) (client_write_iv c')
  /\ client_write_iv c'
     = map (fun b => (b + 64) mod 256) (firstn 12 (client_write_key c')).
Proof.
  cbv zeta. unfold tls_derive_traffic_keys.
  cbn [fst snd client_write_key server_write_key client_write_iv
         server_write_iv set_traffic_keys].
  split; [reflexivity |].
  repeat (split; [apply tabulate_length |]).
  split.
  { repeat (apply Forall_app; split); apply tabulate_bytes. }
  split.
  { unfold tabulate. rewrite map_map. apply map_ext. intro i.
    apply land_255_plus_128. }
  split.
  { unfold tabulate. rewrite map_map. apply map_ext. intro i.
    replace (nth (i mod 48) (master_secret c) 0 + Z.of_nat i + 192)
      with ((nth (i mod 48) (master_secret c) 0 + Z.of_nat i + 64) + 128)
      by lia.
    apply land_255_plus_128. }
  unfold tabulate. rewrite firstn_map.
  change (firstn 12 (seq 0 32)) with (seq 0 12).
  rewrite map_map. apply map_ext. intro i. apply land_255_plus.
Qed.


Lemma returns_same_context r1 c1 r2 c2 :
  Returns r1 c1 = Returns r2 c2 -> c1 = c2.
Proof. intro H. inversion H. reflexivity. Qed.

(** X6.  The CHANGE_CIPHER_SPEC handler derives the same master secret
    and the same traffic keys and IVs in every session: when it gets as
    far as arming the cipher (it returns success or a crypto failure), the
    secrets it leaves do not depend on the context it was given, hence on
    neither random, nor on the message. *)
Theorem change_cipher_spec_derives_fixed_secrets c data r c' :
  tls_process_change_cipher_spec c data = Returns r c' ->
  r = TLS_SUCCESS \/ r = TLS_ERROR_CRYPTO_FAILURE ->
  master_secret c' = master_secret derived_secrets
  /\ client_write_key c' = client_write_key derived_secrets
  /\ server_write_key c' = server_write_key derived_secrets
  /\ client_write_iv c' = client_write_iv derived_secrets
  /\ server_write_iv c' = server_write_iv derived_secrets
  /\ client_random c' = client_random c
  /\ server_random c' = server_random c.
Proof.
  unfold tls_process_change_cipher_spec.
  destruct (negb (state_eqb (state c) TLS_STATE_CHANGE_CIPHER_SPEC)).
  { intros H [-> | ->]; discriminate H. }
  destruct ((data_len data <? 1) || negb (nth 0 data 0 =? 1)).
  { intros H [-> | ->]; discriminate H. }
  cbv zeta.
  change (tls_derive_master_secret c (zeros 32))
    with (Some (TLS_SUCCESS, with_master_secret c)).
  cbn [tls_succeeded negb].
  change (tls_derive_traffic_keys (with_master_secret c))
    with (TLS_SUCCESS, snd (tls_derive_traffic_keys (with_master_secret c))).
  cbn [tls_succeeded negb].
  destruct (aes_init_at _ _ _) as [result p].
  assert (Hsecrets :
            forall s : tls1_3_context_t,
              s = snd (tls_derive_traffic_keys (with_master_secret c)) ->
              master_secret s = master_secret derived_secrets
              /\ client_write_key s = client_write_key derived_secrets
              /\ server_write_key s = server_write_key derived_secrets
              /\ client_write_iv s = client_write_iv derived_secrets
              /\ server_write_iv s = server_write_iv derived_secrets
              /\ client_random s = client_random c
              /\ server_random s = server_random c).
  { intros s ->. repeat (split; [reflexivity |]). reflexivity. }
  destruct (negb (aes_succeeded result)).
  - intros H _. apply returns_same_context in H. subst c'.
    apply (Hsecrets _ eq_refl).
  - intros H _. apply returns_same_context in H. subst c'.
    apply (Hsecrets _ eq_refl).
Qed.

(** X7.  [tls_generate_client_random] and [tls_generate_server_random]
    always succeed and write nothing but their own field; the 32 bytes
    they write are the same for every context, with no byte repeated, and
    the two sequences differ at every position. *)
Theorem generated_randoms_are_fixed c :
  let cr := tabulate 32 (fun i => (Z.of_nat i * 7 + 13) mod 256) in
  let sr := tabulate 32 (fun i => (Z.of_nat i * 11 + 17) mod 256) in
  tls_generate_client_random c = (TLS_SUCCESS, set_client_random c cr)
  /\ tls_generate_server_random c = (TLS_SUCCESS, set_server_random c sr)
  /\ length cr = 32%nat /\ length sr = 32%nat
  /\ NoDup cr /\ NoDup sr
  /\ Forall2 (fun x y => x <> y) cr sr.
Proof.
  cbv zeta. split; [reflexivity |]. split; [reflexivity |].
  split; [reflexivity |]. split; [reflexivity |].
  assert (Hnodup : forall l : list Z,
             forallb (fun x => (count_occ Z.eq_dec l x =? 1)%nat) l = true ->
             NoDup l).
  { intros l H. apply (NoDup_count_occ' Z.eq_dec). intros x Hx.
    rewrite forallb_forall in H. apply Nat.eqb_eq. apply H. exact Hx. }
  split; [apply Hnodup; vm_compute; reflexivity |].
  split; [apply Hnodup; vm_compute; reflexivity |].
  unfold tabulate. cbn [seq map].
  repeat (constructor; [vm_compute; discriminate |]). constructor.
Qed.

(** ** Initialisation and cleanup *)

(** X8.  [tls1_3_init] succeeds exactly when all four allocations
    succeeded.  On success the context is in state CLIENT_HELLO with every
    secret zero and the sequence number 0 and holds the four handles; on
    failure the result is [TLS_ERROR_MEMORY_ALLOCATION] and the context is
    the zeroed one, with no handle left in it. *)
Theorem init_succeeds_iff_all_allocated m :
  if match malloc_aes m with Some _ => true | None => false end
     && malloc_sha256 m && malloc_rsa m && malloc_ec m
  then tls1_3_init m
       = (TLS_SUCCESS,
          set_handles (set_aes_ctx zeroed_context (malloc_aes m)) true true true)
       /\ state (snd (tls1_3_init m)) = TLS_STATE_CLIENT_HELLO
       /\ sequence_number (snd (tls1_3_init m)) = 0
       /\ master_secret (snd (tls1_3_init m)) = zeros 48
  else tls1_3_init m = (TLS_ERROR_MEMORY_ALLOCATION, zeroed_context)
       /\ aes_ctx (snd (tls1_3_init m)) = None.
Proof.
  unfold tls1_3_init.
  cbn [aes_ctx sha256_ctx rsa_ctx ec_ctx set_handles set_aes_ctx].
  destruct (malloc_aes m) as [a |], (malloc_sha256 m), (malloc_rsa m),
    (malloc_ec m); cbn [andb orb negb fst snd];
    try rewrite cleanup_context;
    repeat (split; [reflexivity |]); reflexivity.
Qed.

(** X9.  A cleaned-up context is not marked as unusable: its state reads
    CLIENT_HELLO, not ERROR, and [tls1_3_process_handshake] accepts a
    CLIENT_HELLO of at least 36 bytes on it as on a fresh context, storing
    the random and moving to SERVER_HELLO, while all four handles are
    NULL. *)
Theorem cleaned_up_context_takes_a_client_hello c data :
  36 <= data_len data ->
  nth 0 data 0 = TLS_MSG_CLIENT_HELLO ->
  let c0 := fst (tls1_3_cleanup c) in
  tls1_3_get_state c0 = TLS_STATE_CLIENT_HELLO
  /\ aes_ctx c0 = None
  /\ tls1_3_process_handshake c0 data
     = Returns TLS_SUCCESS
         (set_state (set_client_random c0 (firstn 32 (skipn 4 data)))
            TLS_STATE_SERVER_HELLO).
Proof.
  intros Hlen Ht. cbv zeta. rewrite cleanup_context.
  split; [reflexivity |]. split; [reflexivity |].
  unfold tls1_3_process_handshake, tls_process_client_hello.
  replace (data_len data <? 4) with false by (symmetry; apply Z.ltb_ge; lia).
  rewrite Ht. cbn [TLS_MSG_CLIENT_HELLO Z.eqb Pos.eqb].
  cbn [state zeroed_context state_eqb state_code Z.eqb negb].
  unfold memcpy_from, data_len in *.
  replace (4 + 32 <=? length data)%nat with true
    by (symmetry; apply Nat.leb_le; lia).
  reflexivity.
Qed.

End Sessions.

(** * Further properties of the record layer *)

Section Records.

Context {provider : AesProvider}.




(** X11.  An empty buffer is a valid record: in state APPLICATION_DATA
    both calls succeed on it without a provider call, even when the AES
    handle is NULL, write nothing, report length 0 and still advance the
    sequence number. *)
Theorem empty_record_advances_the_sequence_number c :
  state c = TLS_STATE_APPLICATION_DATA ->
  let e := tls1_3_encrypt_data c [] in
  let d := tls1_3_decrypt_data c [] in
  (rr_status e = TLS_SUCCESS /\ rr_output e = [] /\ rr_length e = Some 0%nat
   /\ aes_ctx (rr_ctx e) = aes_ctx c
   /\ sequence_number (rr_ctx e) = uint64_succ (sequence_number c))
  /\ (rr_status d = TLS_SUCCESS /\ rr_output d = [] /\ rr_length d = Some 0%nat
      /\ aes_ctx (rr_ctx d) = aes_ctx c
      /\ sequence_number (rr_ctx d) = uint64_succ (sequence_number c)).
Proof.
  intro Hs. cbv zeta.
  unfold tls1_3_encrypt_data, tls1_3_decrypt_data. rewrite Hs. cbn.
  repeat split.
Qed.




Lemma encrypt_blocks_keeps_null plaintext n :
  forall i p out r p' out',
    encrypt_blocks n i p plaintext out = (r, p', out') ->
    (p' = None <-> p = None).
Proof.
  induction n as [| n IH]; intros i p out r p' out' Hloop.
  - inversion Hloop; subst. tauto.
  - cbn [encrypt_blocks] in Hloop.
    destruct p as [a |]; cbn [aes_encrypt_block_at] in Hloop.
    + destruct (aes_encrypt_block a (block_at plaintext i)) as [[r1 a1] o].
      destruct (negb (aes_succeeded r1)).
      * inversion Hloop; subst. split; discriminate.
      * apply IH in Hloop. rewrite Hloop. split; discriminate.
    + destruct (negb (aes_succeeded aes_on_null_context)).
      * inversion Hloop; subst. tauto.
      * apply IH in Hloop. exact Hloop.
Qed.

Lemma decrypt_blocks_keeps_null ciphertext n :
  forall i p out r p' out',
    decrypt_blocks n i p ciphertext out = (r, p', out') ->
    (p' = None <-> p = None).
Proof.
  induction n as [| n IH]; intros i p out r p' out' Hloop.
  - inversion Hloop; subst. tauto.
  - cbn [decrypt_blocks] in Hloop.
    destruct p as [a |]; cbn [aes_decrypt_block_at] in Hloop.
    + destruct (aes_decrypt_block a (block_at ciphertext i)) as [[r1 a1] o].
      destruct (negb (aes_succeeded r1)).
      * inversion Hloop; subst. split; discriminate.
      * apply IH in Hloop. rewrite Hloop. split; discriminate.
    + destruct (negb (aes_succeeded aes_on_null_context)).
      * inversion Hloop; subst. tauto.
      * apply IH in Hloop. exact Hloop.
Qed.


(** X13.  Whatever they return, [tls1_3_encrypt_data] and
    [tls1_3_decrypt_data] write nothing in the context but the AES object
    and the sequence number: state, randoms, master secret, traffic keys
    and IVs, the other handles and the handshake hash are untouched, and a
    NULL AES handle stays NULL (and a live one live). *)
Theorem record_calls_keep_the_session c buf :
  same_session c (rr_ctx (tls1_3_encrypt_data c buf))
  /\ same_session c (rr_ctx (tls1_3_decrypt_data c buf)).
Proof.
  assert (Hrefl : same_session c c)
    by (unfold same_session; repeat (split; [reflexivity |]); tauto).
  split.
  - unfold tls1_3_encrypt_data.
    destruct (negb (state_eqb (state c) TLS_STATE_APPLICATION_DATA));
      [exact Hrefl |].
    destruct (negb (length buf mod 16 =? 0)%nat); [exact Hrefl |].
    destruct (encrypt_blocks _ _ _ _ _) as [[result p] out] eqn:Hloop.
    apply encrypt_blocks_keeps_null in Hloop.
    destruct (negb (aes_succeeded result)); unfold same_session; cbn;
      repeat (split; [reflexivity |]); exact Hloop.
  - unfold tls1_3_decrypt_data.
    destruct (negb (state_eqb (state c) TLS_STATE_APPLICATION_DATA));
      [exact Hrefl |].
    destruct (negb (length buf mod 16 =? 0)%nat); [exact Hrefl |].
    destruct (decrypt_blocks _ _ _ _ _) as [[result p] out] eqn:Hloop.
    apply decrypt_blocks_keeps_null in Hloop.
    destruct (negb (aes_succeeded result)); unfold same_session; cbn;
      repeat (split; [reflexivity |]); exact Hloop.
Qed.

(** X14.  The ciphertext and the result of a record call are a function
    of the state, the AES object and the input alone: two contexts that
    agree on these give the same result code, the same output bytes and
    the same reported length, however their IVs, keys, randoms and
    sequence numbers differ. *)
Theorem record_output_ignores_ivs_and_sequence_number c c' buf :
  state c = state c' ->
  aes_ctx c = aes_ctx c' ->
  let e := tls1_3_encrypt_data c buf in
  let e' := tls1_3_encrypt_data c' buf in
  let d := tls1_3_decrypt_data c buf in
  let d' := tls1_3_decrypt_data c' buf in
  (rr_status e = rr_status e' /\ rr_output e = rr_output e'
   /\ rr_length e = rr_length e' /\ aes_ctx (rr_ctx e) = aes_ctx (rr_ctx e'))
  /\ (rr_status d = rr_status d' /\ rr_output d = rr_output d'
      /\ rr_length d = rr_length d' /\ aes_ctx (rr_ctx d) = aes_ctx (rr_ctx d')).
Proof.
  intros Hs Ha. cbv zeta.
  unfold tls1_3_encrypt_data, tls1_3_decrypt_data.
  rewrite <- Hs, <- Ha.
  destruct (negb (state_eqb (state c) TLS_STATE_APPLICATION_DATA)).
  { cbn. rewrite Ha. repeat split. }
  destruct (negb (length buf mod 16 =? 0)%nat).
  { cbn. rewrite Ha. repeat split. }
  destruct (encrypt_blocks _ _ _ _ _) as [[r1 p1] o1].
  destruct (decrypt_blocks _ _ _ _ _) as [[r2 p2] o2].
  destruct (negb (aes_succeeded r1)), (negb (aes_succeeded r2)); cbn;
    repeat split.
Qed.

(** X15.  The sequence number stays a 64-bit value under both record
    calls, and at its largest value a successful call takes it back to 0
    without any error. *)
Theorem sequence_number_wraps_to_zero c buf :
  0 <= sequence_number c < 2 ^ 64 ->
  let e := tls1_3_encrypt_data c buf in
  let d := tls1_3_decrypt_data c buf in
  0 <= sequence_number (rr_ctx e) < 2 ^ 64
  /\ 0 <= sequence_number (rr_ctx d) < 2 ^ 64
  /\ (sequence_number c = 2 ^ 64 - 1 ->
      (rr_status e = TLS_SUCCESS -> sequence_number (rr_ctx e) = 0)
      /\ (rr_status d = TLS_SUCCESS -> sequence_number (rr_ctx d) = 0)).
Proof.
  intros Hrange. cbv zeta.
  destruct (encrypt_effect c buf) as (_ & Heok & Hefail).
  destruct (decrypt_effect c buf) as (_ & Hdok & Hdfail).
  assert (Hsucc : 0 <= uint64_succ (sequence_number c) < 2 ^ 64)
    by (unfold uint64_succ; apply Z.mod_pos_bound; lia).
  split; [| split].
  - destruct (tls_result_eq_dec (rr_status (tls1_3_encrypt_data c buf))
                TLS_SUCCESS) as [E | E].
    + destruct (Heok E) as [-> _]. exact Hsucc.
    + destruct (Hefail E) as [-> _]. exact Hrange.
  - destruct (tls_result_eq_dec (rr_status (tls1_3_decrypt_data c buf))
                TLS_SUCCESS) as [E | E].
    + destruct (Hdok E) as [-> _]. exact Hsucc.
    + destruct (Hdfail E) as [-> _]. exact Hrange.
  - intro Hmax. split; intro E.
    + destruct (Heok E) as [-> _]. rewrite Hmax. reflexivity.
    + destruct (Hdok E) as [-> _]. rewrite Hmax. reflexivity.
Qed.

End Records.

(** * Block by block encryption *)

Section Blockwise.

Context {provider : AesProvider}.

Lemma block_at_in_prefix (p1 p2 : bytes) j :
  (S j * 16 <= length p1)%nat -> block_at (p1 ++ p2) j = block_at p1 j.
Proof.
  intro H. unfold block_at.
  rewrite skipn_app.
  replace (j * 16 - length p1)%nat with 0%nat by lia.
  cbn [skipn]. rewrite firstn_app, length_skipn.
  replace (16 - (length p1 - j * 16))%nat with 0%nat by lia.
  rewrite firstn_O, app_nil_r. reflexivity.
Qed.

Lemma block_at_in_suffix (p1 p2 : bytes) n1 j :
  length p1 = (n1 * 16)%nat -> block_at (p1 ++ p2) (n1 + j) = block_at p2 j.
Proof.
  intro H. unfold block_at.
  rewrite skipn_app, skipn_all2 by lia.
  replace ((n1 + j) * 16 - length p1)%nat with (j * 16)%nat by lia.
  reflexivity.
Qed.

Lemma seq_from k n : seq k n = map (fun j => (k + j)%nat) (seq 0 n).
Proof.
  assert (H : forall i, seq (k + i) n = map (fun j => (k + j)%nat) (seq i n)).
  { induction n as [| n IH]; intro i; [reflexivity |].
    cbn [seq map]. f_equal. rewrite <- IH. f_equal. lia. }
  rewrite <- H. f_equal. lia.
Qed.

Section Stateless.

(** An AES object the block encryption never refuses and never changes. *)
Variable a : aes_context_t.

Hypothesis encrypt_block_keeps_object :
  forall b, length b = 16%nat ->
            exists ct, aes_encrypt_block a b = (AES_SUCCESS, a, ct).


Lemma encrypt_blocks_blockwise plaintext n :
  forall i out,
    ((i + n) * 16 <= length plaintext)%nat ->
    encrypt_blocks n i (Some a) plaintext out
    = (AES_SUCCESS, Some a, out ++ blocks_of a plaintext i n).
Proof.
  induction n as [| n IH]; intros i out Hlen.
  - cbn. rewrite app_nil_r. reflexivity.
  - cbn [encrypt_blocks aes_encrypt_block_at].
    destruct (encrypt_block_keeps_object (block_at plaintext i)) as (ct & Hct).
    { apply block_at_length. lia. }
    unfold blocks_of. cbn [seq map concat]. rewrite Hct.
    cbn [aes_succeeded negb snd].
    rewrite IH by lia. unfold blocks_of. rewrite app_assoc. reflexivity.
Qed.

Lemma encrypt_data_blockwise c p :
  state c = TLS_STATE_APPLICATION_DATA ->
  aes_ctx c = Some a ->
  (length p mod 16 = 0)%nat ->
  rr_status (tls1_3_encrypt_data c p) = TLS_SUCCESS
  /\ rr_output (tls1_3_encrypt_data c p) = blocks_of a p 0 (length p / 16)
  /\ aes_ctx (rr_ctx (tls1_3_encrypt_data c p)) = Some a
  /\ state (rr_ctx (tls1_3_encrypt_data c p)) = TLS_STATE_APPLICATION_DATA.
Proof.
  intros Hs Ha Hm. unfold tls1_3_encrypt_data.
  rewrite Hs, Hm, Ha.
  cbn [state_eqb state_code Z.eqb Pos.eqb negb Nat.eqb].
  rewrite encrypt_blocks_blockwise
    by (rewrite Nat.add_0_l, (aligned_length _ Hm); lia).
  cbn. repeat split. exact Hs.
Qed.

Lemma blocks_of_append p1 p2 :
  (length p1 mod 16 = 0)%nat ->
  (length p2 mod 16 = 0)%nat ->
  blocks_of a (p1 ++ p2) 0 (length (p1 ++ p2) / 16)
  = blocks_of a p1 0 (length p1 / 16) ++ blocks_of a p2 0 (length p2 / 16).
Proof.
  intros H1 H2.
  pose proof (aligned_length _ H1) as Hn1.
  pose proof (aligned_length _ H2) as Hn2.
  set (n1 := (length p1 / 16)%nat) in *.
  set (n2 := (length p2 / 16)%nat) in *.
  replace (length (p1 ++ p2) / 16)%nat with (n1 + n2)%nat.
  2:{ rewrite length_app, <- Hn1, <- Hn2, <- Nat.mul_add_distr_r.
      rewrite Nat.div_mul by lia. reflexivity. }
  unfold blocks_of. rewrite seq_app, map_app, concat_app. f_equal.
  - f_equal. apply map_ext_in. intros j Hj. apply in_seq in Hj.
    rewrite block_at_in_prefix by lia. reflexivity.
  - f_equal. cbn [Nat.add]. rewrite (seq_from n1 n2).
    rewrite map_map. apply map_ext. intro j.
    rewrite block_at_in_suffix by (symmetry; exact Hn1). reflexivity.
Qed.

(** X16.  Records are encrypted block by block with nothing tying the
    blocks, or the records, together.  On a context in state
    APPLICATION_DATA whose AES object the provider's block encryption
    never refuses and never changes: the ciphertext of two block-aligned
    buffers put end to end is the two ciphertexts put end to end, and
    encrypting the same buffer a second time, under the next sequence
    number, gives the same ciphertext again. *)
Theorem encryption_is_blockwise c p1 p2 :
  state c = TLS_STATE_APPLICATION_DATA ->
  aes_ctx c = Some a ->
  (length p1 mod 16 = 0)%nat ->
  (length p2 mod 16 = 0)%nat ->
  rr_status (tls1_3_encrypt_data c (p1 ++ p2)) = TLS_SUCCESS
  /\ rr_output (tls1_3_encrypt_data c (p1 ++ p2))
     = rr_output (tls1_3_encrypt_data c p1)
       ++ rr_output (tls1_3_encrypt_data c p2)
  /\ rr_status (tls1_3_encrypt_data (rr_ctx (tls1_3_encrypt_data c p1)) p1)
     = TLS_SUCCESS
  /\ rr_output (tls1_3_encrypt_data (rr_ctx (tls1_3_encrypt_data c p1)) p1)
     = rr_output (tls1_3_encrypt_data c p1).
Proof.
  intros Hs Ha H1 H2.
  assert (H12 : (length (p1 ++ p2) mod 16 = 0)%nat).
  { rewrite length_app, <- (aligned_length _ H1), <- (aligned_length _ H2).
    rewrite <- Nat.mul_add_distr_r. apply Nat.Div0.mod_mul. }
  destruct (encrypt_data_blockwise c (p1 ++ p2) Hs Ha H12) as (S12 & O12 & _).
  destruct (encrypt_data_blockwise c p1 Hs Ha H1) as (S1 & O1 & A1 & St1).
  destruct (encrypt_data_blockwise c p2 Hs Ha H2) as (S2 & O2 & _).
  destruct (encrypt_data_blockwise _ p1 St1 A1 H1) as (S11 & O11 & _).
  split; [exact S12 |].
  split; [rewrite O12, O1, O2; apply blocks_of_append; assumption |].
  split; [exact S11 |].
  rewrite O11, O1. reflexivity.
Qed.

End Stateless.

End Blockwise.

(** * Properties of the FIPS provider *)


(** X17.  [fips_provider_init] never succeeds: its power-on self-test
    compares the test data xored with 0x2b against an expected array that
    differs from it, so the call returns [FIPS_ERROR_SELFTEST_FAILED] on
    every structure and leaves the status at not-run.  No sequence of
    interface calls changes that: on every context reached the status
    reads not-run, and [fips_get_module_info],
    [fips_verify_module_integrity] and [fips_run_continuous_selftest]
    answer [FIPS_ERROR_SELFTEST_NOT_PASSED] and change nothing. *)
Theorem fips_provider_never_passes_selftest c :
  fips_reachable c ->
  (forall c0, fst (fips_provider_init c0) = FIPS_ERROR_SELFTEST_FAILED)
  /\ fips_get_selftest_status c = FIPS_SELFTEST_NOT_RUN
  /\ (forall info,
        fips_get_module_info c info = (FIPS_ERROR_SELFTEST_NOT_PASSED, info))
  /\ (forall stack,
        fips_verify_module_integrity c stack = FIPS_ERROR_SELFTEST_NOT_PASSED)
  /\ fips_run_continuous_selftest c = (FIPS_ERROR_SELFTEST_NOT_PASSED, c).
Proof.
  intro Hreach.
  assert (Hinit : forall c0,
             fst (fips_provider_init c0) = FIPS_ERROR_SELFTEST_FAILED
             /\ selftest_status (snd (fips_provider_init c0))
                = FIPS_SELFTEST_NOT_RUN)
    by (intro c0; split; vm_compute; reflexivity).
  assert (Hs : selftest_status c = FIPS_SELFTEST_NOT_RUN).
  { induction Hreach as [c0 | c c' _ IH Hstep].
    - apply Hinit.
    - destruct Hstep as [c | c | c].
      + apply Hinit.
      + unfold fips_run_continuous_selftest. rewrite IH. exact IH.
      + reflexivity. }
  split; [intro c0; apply Hinit |].
  split; [exact Hs |].
  unfold fips_get_module_info, fips_verify_module_integrity,
    fips_run_continuous_selftest.
  rewrite Hs. repeat split.
Qed.

Lemma fold_xor_from data x :
  fold_left Z.lxor data x = Z.lxor x (fold_right Z.lxor 0 data).
Proof.
  revert x. induction data as [| b data IH]; intro x; cbn.
  - rewrite Z.lxor_0_r. reflexivity.
  - rewrite IH, Z.lxor_assoc. reflexivity.
Qed.

Lemma xor_of_permutation data data' :
  Permutation data data' -> xor_of data = xor_of data'.
Proof.
  intro H. unfold xor_of. rewrite !fold_xor_from. f_equal.
  induction H as [| b l l' _ IH | b1 b2 l | l1 l2 l3 _ IH1 _ IH2]; cbn.
  - reflexivity.
  - rewrite IH. reflexivity.
  - rewrite <- !Z.lxor_assoc. rewrite (Z.lxor_comm b2 b1). reflexivity.
  - rewrite IH1. exact IH2.
Qed.

Lemma nth_tabulate n f i : (i < n)%nat -> nth i (tabulate n f) 0 = f i.
Proof.
  intro H. unfold tabulate.
  rewrite (nth_indep _ 0 (f 0%nat)) by (rewrite length_map, length_seq; exact H).
  rewrite map_nth, seq_nth by exact H. reflexivity.
Qed.

(** X18.  The integrity value is the xor of the module data bytes, spread
    over 32 bytes: byte [i] is byte 0 xor [i], so the 32 bytes carry the
    information of one; and any rearrangement of the bytes of the module
    id, version, name and certificate number leaves the value as it
    was. *)
Theorem integrity_value_is_one_xor_byte c :
  let v := integrity_value (fips_calculate_integrity_value c) in
  length v = 32%nat
  /\ nth 0 v 0 = xor_of (integrity_data c)
  /\ (forall i, (i < 32)%nat -> nth i v 0 = Z.lxor (nth 0 v 0) (Z.of_nat i))
  /\ (forall c',
        Permutation (integrity_data c) (integrity_data c') ->
        integrity_value (fips_calculate_integrity_value c') = v).
Proof.
  cbv zeta. unfold fips_calculate_integrity_value.
  cbn [integrity_value set_integrity_value].
  split; [apply tabulate_length |].
  assert (H0 : nth 0 (tabulate 32 (fun i => Z.lxor (xor_of (integrity_data c))
                                              (Z.of_nat i))) 0
               = xor_of (integrity_data c)).
  { rewrite nth_tabulate by lia. apply Z.lxor_0_r. }
  split; [exact H0 |].
  split.
  - intros i Hi. rewrite H0. apply nth_tabulate. exact Hi.
  - intros c' Hperm. rewrite (xor_of_permutation _ _ Hperm). reflexivity.
Qed.

(** X19.  [fips_verify_module_integrity] never looks at the module data:
    on a context whose self-tests passed it succeeds exactly when the
    stored integrity value equals what its unwritten local array holds,
    and otherwise reports a failed check; with any other status it
    answers [FIPS_ERROR_SELFTEST_NOT_PASSED].  Two contexts with the same
    status and stored value get the same answer whatever their module id,
    version, name and certificate number. *)
Theorem integrity_check_ignores_module_data c stack :
  (fips_verify_module_integrity c stack = FIPS_SUCCESS
   <-> selftest_status c = FIPS_SELFTEST_PASSED
       /\ firstn 32 (integrity_value c) = firstn 32 stack)
  /\ (fips_verify_module_integrity c stack = FIPS_ERROR_SELFTEST_NOT_PASSED
      <-> selftest_status c <> FIPS_SELFTEST_PASSED)
  /\ (forall c',
        selftest_status c' = selftest_status c ->
        integrity_value c' = integrity_value c ->
        fips_verify_module_integrity c' stack
        = fips_verify_module_integrity c stack).
Proof.
  unfold fips_verify_module_integrity, memcmp_equal.
  split; [| split].
  - destruct (selftest_status c); cbn [selftest_passed negb];
      try (split; [discriminate | intros [H _]; discriminate H]).
    destruct (list_eq_dec Z.eq_dec _ _) as [E | E].
    + split; [intros _; split; [reflexivity | exact E] | reflexivity].
    + split; [discriminate | intros [_ H]; contradiction].
  - destruct (selftest_status c); cbn [selftest_passed negb];
      try (split; [intros _; discriminate | reflexivity]).
    destruct (list_eq_dec Z.eq_dec _ _);
      (split; [discriminate | intro H; exfalso; apply H; reflexivity]).
  - intros c' -> ->. reflexivity.
Qed.

Lemma c_str_nonzero mem : Forall (fun b => b <> 0) (c_str mem).
Proof.
  induction mem as [| b mem IH]; cbn; [constructor |].
  destruct (b =? 0) eqn:E; [constructor |].
  constructor; [apply Z.eqb_neq; exact E | exact IH].
Qed.

Lemma c_str_before_nul s rest :
  Forall (fun b => b <> 0) s -> c_str (s ++ 0 :: rest) = s.
Proof.
  induction 1 as [| b s Hb _ IH]; cbn; [reflexivity |].
  apply Z.eqb_neq in Hb. rewrite Hb, IH. reflexivity.
Qed.

Lemma strncpy_length src n : length (strncpy src n) = n.
Proof.
  unfold strncpy. rewrite length_app. unfold zeros. rewrite repeat_length.
  pose proof (firstn_le_length n (c_str src)). lia.
Qed.

Lemma strncpy_terminated src n :
  c_str (strncpy src n ++ [0]) = firstn n (c_str src).
Proof.
  unfold strncpy. rewrite <- app_assoc.
  assert (Hnz : Forall (fun b => b <> 0) (firstn n (c_str src))).
  { generalize (c_str src), (c_str_nonzero src). clear src.
    induction n as [| n IH]; intros l Hl; [constructor |].
    destruct Hl as [| b l Hb Hl]; cbn [firstn]; [constructor |].
    constructor; [exact Hb | apply IH; exact Hl]. }
  destruct (n - length (firstn n (c_str src)))%nat as [| k]; cbn [zeros repeat app].
  - apply c_str_before_nul. exact Hnz.
  - apply c_str_before_nul. exact Hnz.
Qed.

(** X20.  On a context whose self-tests passed, [fips_get_module_info]
    succeeds and always hands out terminated strings: the name has 64
    bytes and the certificate number 32, each ending in NUL, and as C
    strings they are the context's name cut to 63 characters and its
    certificate number cut to 31, also when the context's own arrays hold
    no NUL.  With any other status the call answers
    [FIPS_ERROR_SELFTEST_NOT_PASSED] and leaves [info] as it was. *)
Theorem module_info_strings_are_terminated c info :
  (selftest_status c = FIPS_SELFTEST_PASSED ->
   let info' := snd (fips_get_module_info c info) in
   fst (fips_get_module_info c info) = FIPS_SUCCESS
   /\ length (info_module_name info') = 64%nat
   /\ nth 63 (info_module_name info') 1 = 0
   /\ c_str (info_module_name info') = firstn 63 (c_str (module_name c))
   /\ length (info_certificate_number info') = 32%nat
   /\ nth 31 (info_certificate_number info') 1 = 0
   /\ c_str (info_certificate_number info')
      = firstn 31 (c_str (certificate_number c)))
  /\ (selftest_status c <> FIPS_SELFTEST_PASSED ->
      fips_get_module_info c info = (FIPS_ERROR_SELFTEST_NOT_PASSED, info)).
Proof.
  unfold fips_get_module_info. split.
  - intros ->. cbn [selftest_passed negb fst snd info_module_name
                      info_certificate_number].
    split; [reflexivity |].
    split; [rewrite length_app, strncpy_length; reflexivity |].
    split.
    { rewrite app_nth2 by (rewrite strncpy_length; lia).
      rewrite strncpy_length. reflexivity. }
    split; [apply strncpy_terminated |].
    split; [rewrite length_app, strncpy_length; reflexivity |].
    split.
    { rewrite app_nth2 by (rewrite strncpy_length; lia).
      rewrite strncpy_length. reflexivity. }
    apply strncpy_terminated.
  - intro H. destruct (selftest_status c); try reflexivity.
    exfalso. apply H. reflexivity.
Qed.

Lemma approved_among_listed table name :
  (approved_among table name = FIPS_SUCCESS <-> In name table)
  /\ (approved_among table name = FIPS_ERROR_ALGORITHM_NOT_APPROVED
      <-> ~ In name table).
Proof.
  induction table as [| entry table [IH1 IH2]]; cbn.
  - split; split; try tauto; discriminate.
  - destruct (String.eqb name entry) eqn:E.
    + apply String.eqb_eq in E. subst entry.
      split; split; intro H; try reflexivity; try discriminate H.
      * left. reflexivity.
      * exfalso. apply H. left. reflexivity.
    + apply String.eqb_neq in E.
      rewrite IH1, IH2. split; split; intro H.
      * right. exact H.
      * destruct H as [H | H]; [congruence | exact H].
      * intros [H' | H']; [congruence | contradiction].
      * intro H'. apply H. right. exact H'.
Qed.

(** X21.  [fips_is_algorithm_approved] answers [FIPS_SUCCESS] exactly for
    the 41 names of its table, compared character by character (so in
    upper case only), and [FIPS_ERROR_ALGORITHM_NOT_APPROVED] for every
    other name, the empty one included; no name is listed twice. *)
Theorem algorithm_approved_iff_listed algorithm_name :
  (fips_is_algorithm_approved algorithm_name = FIPS_SUCCESS
   <-> In algorithm_name fips_approved_algorithms)
  /\ (fips_is_algorithm_approved algorithm_name
      = FIPS_ERROR_ALGORITHM_NOT_APPROVED
      <-> ~ In algorithm_name fips_approved_algorithms)
  /\ fips_is_algorithm_approved EmptyString
     = FIPS_ERROR_ALGORITHM_NOT_APPROVED
  /\ length fips_approved_algorithms = 41%nat
  /\ NoDup fips_approved_algorithms.
Proof.
  unfold fips_is_algorithm_approved.
  destruct (approved_among_listed fips_approved_algorithms algorithm_name)
    as [H1 H2].
  split; [exact H1 |]. split; [exact H2 |].
  split; [reflexivity |]. split; [reflexivity |].
  apply (NoDup_count_occ' string_dec). intros x Hx.
  assert (Hall : forallb (fun x => (count_occ string_dec
                                      fips_approved_algorithms x =? 1)%nat)
                   fips_approved_algorithms = true)
    by (vm_compute; reflexivity).
  rewrite forallb_forall in Hall. apply Nat.eqb_eq. apply Hall. exact Hx.
Qed.

(** X22.  The conditional self-test cannot fail, so
    [fips_run_continuous_selftest] never stores the failed status and
    never returns [FIPS_ERROR_SELFTEST_FAILED]: on a context whose
    self-tests passed it returns success with the status unchanged and the
    conditional flag set, and on any other it refuses and changes
    nothing. *)
Theorem continuous_selftest_never_fails c :
  selftest_status (snd (fips_run_continuous_selftest c)) = selftest_status c
  /\ (selftest_status c = FIPS_SELFTEST_PASSED ->
      fips_run_continuous_selftest c
      = (FIPS_SUCCESS, set_conditional_selftest_passed c 1))
  /\ (selftest_status c <> FIPS_SELFTEST_PASSED ->
      fips_run_continuous_selftest c = (FIPS_ERROR_SELFTEST_NOT_PASSED, c))
  /\ fst (fips_run_continuous_selftest c) <> FIPS_ERROR_SELFTEST_FAILED.
Proof.
  unfold fips_run_continuous_selftest.
  assert (Hc : fips_run_conditional_selftest c
               = (FIPS_SUCCESS, set_conditional_selftest_passed c 1))
    by reflexivity.
  destruct (selftest_status c) eqn:Hs; cbn [selftest_passed negb];
    try rewrite Hc; cbn [fips_succeeded negb fst snd];
    repeat split; try (intro H; try discriminate H; try reflexivity;
                       exfalso; apply H; reflexivity);
    try exact Hs; try discriminate.
Qed.

(** * Properties of the command line front end *)

Lemma find_handler_in_some table cmd h :
  find_handler_in table cmd = Some h -> In h table /\ name h = cmd.
Proof.
  induction table as [| entry table IH]; cbn; [discriminate |].
  destruct (String.eqb (name entry) cmd) eqn:E.
  - intro H. inversion H; subst. apply String.eqb_eq in E.
    split; [left; reflexivity | exact E].
  - intro H. destruct (IH H) as [Hin Hn]. split; [right; exact Hin | exact Hn].
Qed.

Lemma find_handler_in_none table cmd :
  find_handler_in table cmd = None <-> ~ In cmd (map name table).
Proof.
  induction table as [| entry table IH]; cbn; [tauto |].
  destruct (String.eqb (name entry) cmd) eqn:E.
  - apply String.eqb_eq in E. split; [discriminate |].
    intro H. exfalso. apply H. left. exact E.
  - apply String.eqb_neq in E. rewrite IH. tauto.
Qed.

Lemma handlers_return_zero h ctx :
  In h command_handlers -> fst (handler h ctx) = 0.
Proof.
  unfold command_handlers. cbn [In].
  intro H.
  repeat (destruct H as [<- | H]; [reflexivity |]).
  contradiction.
Qed.

(** X23.  The exit code of [openssl_cli_main] once the options are
    parsed.  It is 0 or 1; it is 1 exactly when parsing failed or, help
    not being asked for, a command was given that is not one of the ten
    names of the handler table; nothing is written to the error stream
    exactly when it is 0; no listed command ever fails; and the help flag
    or a missing command gives the help text and exit code 0 whatever the
    command is. *)
Theorem cli_exit_code program_name parsed ctx :
  let run := openssl_cli_main program_name parsed ctx in
  (exit_code run = 0 \/ exit_code run = 1)
  /\ (exit_code run = 0 <-> stderr run = [])
  /\ (exit_code run = 1
      <-> parsed <> 0
          \/ (help ctx = 0
              /\ exists cmd, command ctx = Some cmd
                             /\ ~ In cmd (map name command_handlers)))
  /\ (parsed = 0 -> help ctx <> 0 \/ command ctx = None ->
      run = {| exit_code := 0; stdout := print_help program_name;
               stderr := [] |}).
Proof.
  cbv zeta. unfold openssl_cli_main.
  destruct (parsed =? 0) eqn:Hp; cbn [negb].
  2:{ apply Z.eqb_neq in Hp. cbn [exit_code stdout stderr].
      split; [right; reflexivity |].
      split; [split; discriminate |].
      split; [split; [intros _; left; exact Hp | reflexivity] |].
      intro H. contradiction. }
  apply Z.eqb_eq in Hp.
  destruct (help ctx =? 0) eqn:Hh; cbn [negb].
  2:{ apply Z.eqb_neq in Hh. cbn [exit_code stdout stderr].
      split; [left; reflexivity |].
      split; [split; reflexivity |].
      split; [| reflexivity].
      split; [discriminate |].
      intros [H | (H & _)]; contradiction. }
  apply Z.eqb_eq in Hh.
  destruct (command ctx) as [cmd |] eqn:Hc.
  2:{ cbn [exit_code stdout stderr].
      split; [left; reflexivity |].
      split; [split; reflexivity |].
      split; [| reflexivity].
      split; [discriminate |].
      intros [H | (_ & cmd & H & _)]; [contradiction | discriminate H]. }
  unfold find_command_handler.
  destruct (find_handler_in command_handlers cmd) as [h |] eqn:Hf.
  - destruct (find_handler_in_some _ _ _ Hf) as [Hin Hn].
    pose proof (handlers_return_zero h ctx Hin) as Hz.
    destruct (handler h ctx) as [result printed]. cbn [fst] in Hz. subst result.
    cbn [exit_code stdout stderr Z.eqb negb].
    split; [left; reflexivity |].
    split; [split; reflexivity |].
    split.
    + split; [discriminate |].
      intros [H | (_ & cmd' & H & Hnot)]; [contradiction |].
      inversion H; subst cmd'. exfalso. apply Hnot.
      apply in_map_iff. exists h. split; assumption.
    + intros _ [H | H]; [contradiction | discriminate H].
  - apply find_handler_in_none in Hf. cbn [exit_code stdout stderr].
    split; [right; reflexivity |].
    split; [split; discriminate |].
    split.
    + split; [| reflexivity]. intros _. right.
      split; [exact Hh |]. exists cmd. split; [reflexivity | exact Hf].
    + intros _ [H | H]; [contradiction | discriminate H].
Qed.

(** X24.  Four commands are aliases of [genrsa]: for [gendsa],
    [genpkey], [req] and [x509] the table names the RSA key generation
    handler, so a run with one of them is, in exit code and in both
    texts, the run with [genrsa] on the same options, and without the help
    flag it prints the RSA key generation text. *)
Theorem key_commands_run_the_rsa_handler program_name ctx cmd :
  In cmd ["gendsa"; "genpkey"; "req"; "x509"]%string ->
  openssl_cli_main program_name 0 (with_command ctx cmd)
  = openssl_cli_main program_name 0 (with_command ctx "genrsa")
  /\ (help ctx = 0 ->
      openssl_cli_main program_name 0 (with_command ctx cmd)
      = {| exit_code := 0; stdout := snd (handle_genrsa_command ctx);
           stderr := [] |}).
Proof.
  intro Hin. cbn [In] in Hin.
  unfold openssl_cli_main. cbn [Z.eqb negb help command with_command].
  split.
  - destruct (help ctx =? 0); cbn [negb]; [| reflexivity].
    repeat (destruct Hin as [<- | Hin]; [reflexivity |]). contradiction.
  - intros ->. cbn [Z.eqb negb].
    repeat (destruct Hin as [<- | Hin]; [reflexivity |]). contradiction.
Qed.

(** * Instances of the further properties *)

(** X1, instance: a CLIENT_HELLO on a fresh context moves the state from
    0 to 1 and leaves the secrets alone. *)
Lemma handshake_call_rejects_or_advances_witness :
  let c := @fresh_context xor_provider [] in
  let data := handshake_message TLS_MSG_CLIENT_HELLO (repeat 7 32) in
  let c' := context_after (tls1_3_process_handshake c data) c in
  tls1_3_process_handshake c data = Returns TLS_SUCCESS c'
  /\ ((TLS_SUCCESS <> TLS_SUCCESS /\ c' = c)
      \/ (TLS_SUCCESS = TLS_SUCCESS
          /\ state_code (state c') = state_code (state c) + 1))
  /\ master_secret c' = master_secret c
  /\ client_write_key c' = client_write_key c
  /\ server_write_key c' = server_write_key c
  /\ client_write_iv c' = client_write_iv c
  /\ server_write_iv c' = server_write_iv c
  /\ aes_ctx c' = aes_ctx c
  /\ sequence_number c' = sequence_number c
  /\ handshake_hash c' = handshake_hash c.
Proof.
  cbv zeta. split; [vm_compute; reflexivity |].
  apply (@handshake_call_rejects_or_advances xor_provider _
           (handshake_message TLS_MSG_CLIENT_HELLO (repeat 7 32))).
  vm_compute. reflexivity.
Defined.


(** X3, instance: the same CLIENT_HELLO with a nonsense length field and
    three trailing bytes. *)
Lemma process_handshake_reads_type_and_random_only_witness :
  let c := @fresh_context xor_provider [] in
  tls1_3_process_handshake c
    (handshake_message TLS_MSG_CLIENT_HELLO (repeat 7 32))
  = tls1_3_process_handshake c
      (1 :: 9 :: 9 :: 9 :: repeat 7 32 ++ [1; 2; 3]).
Proof.
  cbv zeta.
  apply (@process_handshake_reads_type_and_random_only xor_provider).
  - vm_compute. discriminate.
  - vm_compute. discriminate.
  - reflexivity.
  - reflexivity.
Defined.

Lemma hello_exchanged_reachable : reachable (@hello_exchanged xor_provider []).
Proof.
  unfold hello_exchanged.
  set (c0 := @fresh_context xor_provider []).
  set (ch := handshake_message TLS_MSG_CLIENT_HELLO (repeat 7 32)).
  set (sh := handshake_message TLS_MSG_SERVER_HELLO (repeat 9 32)).
  set (c1 := context_after (tls1_3_process_handshake c0 ch) c0).
  apply (reach_step c1).
  - apply (reach_step c0).
    + apply (reach_init
               (@Build_allocations xor_provider (Some []) true true true)).
      reflexivity.
    + apply (step_handshake c0 ch TLS_SUCCESS). vm_compute. reflexivity.
  - apply (step_handshake c1 sh TLS_SUCCESS). vm_compute. reflexivity.
Defined.

(** X4, instance: the context after the two hello messages. *)
Lemma interface_never_completes_the_handshake_witness :
  let c := @hello_exchanged xor_provider [] in
  handshake_pending c
  /\ (forall buf,
        rr_status (tls1_3_encrypt_data c buf) = TLS_ERROR_INVALID_STATE
        /\ rr_output (tls1_3_encrypt_data c buf) = []
        /\ rr_status (tls1_3_decrypt_data c buf) = TLS_ERROR_INVALID_STATE
        /\ rr_output (tls1_3_decrypt_data c buf) = []).
Proof.
  exact (@interface_never_completes_the_handshake xor_provider _
           hello_exchanged_reachable).
Defined.

(** X6, instance: the handler entered after the two hello messages. *)
Lemma change_cipher_spec_derives_fixed_secrets_witness :
  let c := @hello_exchanged xor_provider [] in
  let c' := context_after (tls_process_change_cipher_spec c [1]) c in
  tls_process_change_cipher_spec c [1] = Returns TLS_SUCCESS c'
  /\ master_secret c' = master_secret (@derived_secrets xor_provider)
  /\ client_write_key c' = client_write_key (@derived_secrets xor_provider)
  /\ server_write_key c' = server_write_key (@derived_secrets xor_provider)
  /\ client_write_iv c' = client_write_iv (@derived_secrets xor_provider)
  /\ server_write_iv c' = server_write_iv (@derived_secrets xor_provider)
  /\ client_random c' = client_random c
  /\ server_random c' = server_random c.
Proof.
  cbv zeta. split; [vm_compute; reflexivity |].
  apply (@change_cipher_spec_derives_fixed_secrets xor_provider _ [1]
           TLS_SUCCESS).
  - vm_compute. reflexivity.
  - left. reflexivity.
Defined.

(** X9, instance: the xor session cleaned up, then a CLIENT_HELLO. *)
Lemma cleaned_up_context_takes_a_client_hello_witness :
  let c0 := fst (tls1_3_cleanup xor_session) in
  let data := handshake_message TLS_MSG_CLIENT_HELLO (repeat 7 32) in
  tls1_3_get_state c0 = TLS_STATE_CLIENT_HELLO
  /\ aes_ctx c0 = None
  /\ tls1_3_process_handshake c0 data
     = Returns TLS_SUCCESS
         (set_state (set_client_random c0 (firstn 32 (skipn 4 data)))
            TLS_STATE_SERVER_HELLO).
Proof.
  cbv zeta.
  apply (@cleaned_up_context_takes_a_client_hello xor_provider).
  - vm_compute. discriminate.
  - reflexivity.
Defined.


(** X11, instance: the empty record on the xor session without its AES
    handle. *)
Lemma empty_record_advances_the_sequence_number_witness :
  let c := set_aes_ctx xor_session None in
  let e := tls1_3_encrypt_data c [] in
  let d := tls1_3_decrypt_data c [] in
  (rr_status e = TLS_SUCCESS /\ rr_output e = [] /\ rr_length e = Some 0%nat
   /\ aes_ctx (rr_ctx e) = aes_ctx c
   /\ sequence_number (rr_ctx e) = uint64_succ (sequence_number c))
  /\ (rr_status d = TLS_SUCCESS /\ rr_output d = [] /\ rr_length d = Some 0%nat
      /\ aes_ctx (rr_ctx d) = aes_ctx c
      /\ sequence_number (rr_ctx d) = uint64_succ (sequence_number c)).
Proof.
  cbv zeta.
  apply (@empty_record_advances_the_sequence_number xor_provider).
  reflexivity.
Defined.


(** X14, instance: the xor session and the same session with other IVs,
    another server key and sequence number 41. *)
Lemma record_output_ignores_ivs_and_sequence_number_witness :
  let c := xor_session in
  let c' := set_sequence_number
              (set_traffic_keys xor_session (client_write_key xor_session)
                 (zeros 32) (repeat 1 12) (repeat 2 12)) 41 in
  let buf := repeat 65 32 in
  let e := tls1_3_encrypt_data c buf in
  let e' := tls1_3_encrypt_data c' buf in
  let d := tls1_3_decrypt_data c buf in
  let d' := tls1_3_decrypt_data c' buf in
  (rr_status e = rr_status e' /\ rr_output e = rr_output e'
   /\ rr_length e = rr_length e' /\ aes_ctx (rr_ctx e) = aes_ctx (rr_ctx e'))
  /\ (rr_status d = rr_status d' /\ rr_output d = rr_output d'
      /\ rr_length d = rr_length d' /\ aes_ctx (rr_ctx d) = aes_ctx (rr_ctx d')).
Proof.
  apply (@record_output_ignores_ivs_and_sequence_number xor_provider
           xor_session
           (set_sequence_number
              (set_traffic_keys xor_session (client_write_key xor_session)
                 (zeros 32) (repeat 1 12) (repeat 2 12)) 41)
           (repeat 65 32));
    vm_compute; reflexivity.
Defined.

(** X15, instance: the xor session at the largest sequence number. *)
Lemma sequence_number_wraps_to_zero_witness :
  let c := set_sequence_number xor_session (2 ^ 64 - 1) in
  let e := tls1_3_encrypt_data c (repeat 65 16) in
  rr_status e = TLS_SUCCESS /\ sequence_number (rr_ctx e) = 0.
Proof.
  cbv zeta.
  pose proof (@sequence_number_wraps_to_zero xor_provider
                (set_sequence_number xor_session (2 ^ 64 - 1))
                (repeat 65 16)
                ltac:(vm_compute; split; [discriminate | reflexivity]))
    as (_ & _ & Hwrap).
  assert (Hok : rr_status (tls1_3_encrypt_data
                             (set_sequence_number xor_session (2 ^ 64 - 1))
                             (repeat 65 16)) = TLS_SUCCESS)
    by (vm_compute; reflexivity).
  split; [exact Hok |].
  apply (proj1 (Hwrap eq_refl)). exact Hok.
Defined.

(** X16, instance: the xor provider never refuses a block and keeps its
    key; one block and two blocks on the xor session. *)
Lemma encryption_is_blockwise_witness :
  let c := xor_session in
  let p1 := repeat 65 16 in
  let p2 := repeat 66 32 in
  rr_status (tls1_3_encrypt_data c (p1 ++ p2)) = TLS_SUCCESS
  /\ rr_output (tls1_3_encrypt_data c (p1 ++ p2))
     = rr_output (tls1_3_encrypt_data c p1)
       ++ rr_output (tls1_3_encrypt_data c p2)
  /\ rr_status (tls1_3_encrypt_data (rr_ctx (tls1_3_encrypt_data c p1)) p1)
     = TLS_SUCCESS
  /\ rr_output (tls1_3_encrypt_data (rr_ctx (tls1_3_encrypt_data c p1)) p1)
     = rr_output (tls1_3_encrypt_data c p1).
Proof.
  cbv zeta.
  apply (@encryption_is_blockwise xor_provider (client_write_key xor_session)).
  - intros b _. exists (xor_block (client_write_key xor_session) b).
    reflexivity.
  - reflexivity.
  - reflexivity.
  - reflexivity.
  - reflexivity.
Defined.

(** X17, instance: the context [fips_provider_init] leaves. *)
Lemma fips_provider_never_passes_selftest_witness :
  let c := snd (fips_provider_init fips_zeroed_context) in
  (forall c0, fst (fips_provider_init c0) = FIPS_ERROR_SELFTEST_FAILED)
  /\ fips_get_selftest_status c = FIPS_SELFTEST_NOT_RUN
  /\ (forall info,
        fips_get_module_info c info = (FIPS_ERROR_SELFTEST_NOT_PASSED, info))
  /\ (forall stack,
        fips_verify_module_integrity c stack = FIPS_ERROR_SELFTEST_NOT_PASSED)
  /\ fips_run_continuous_selftest c = (FIPS_ERROR_SELFTEST_NOT_PASSED, c).
Proof.
  exact (fips_provider_never_passes_selftest _
           (fips_reach_init fips_zeroed_context)).
Defined.

(** X18, instance: the module id written backwards gives the integrity
    value of the module id itself. *)
Lemma integrity_value_is_one_xor_byte_witness :
  let c := snd (fips_provider_init fips_zeroed_context) in
  let c' := set_module_id c (rev (module_id c)) in
  module_id c' <> module_id c
  /\ integrity_value (fips_calculate_integrity_value c')
     = integrity_value (fips_calculate_integrity_value c)
  /\ nth 5 (integrity_value (fips_calculate_integrity_value c)) 0
     = Z.lxor (nth 0 (integrity_value (fips_calculate_integrity_value c)) 0) 5.
Proof.
  cbv zeta. split; [vm_compute; discriminate |].
  pose proof (integrity_value_is_one_xor_byte
                (snd (fips_provider_init fips_zeroed_context)))
    as (_ & _ & Hbyte & Hperm).
  split.
  - apply Hperm. unfold integrity_data.
    apply Permutation_app_tail.
    change (Permutation
              (module_id (snd (fips_provider_init fips_zeroed_context)))
              (rev (module_id (snd (fips_provider_init fips_zeroed_context))))).
    apply Permutation_rev.
  - apply (Hbyte 5%nat). lia.
Defined.

(** X19, instance: a context marked as passed and a stack that happens to
    hold its integrity value; the module name plays no part. *)
Lemma integrity_check_ignores_module_data_witness :
  let c := set_selftest_status (snd (fips_provider_init fips_zeroed_context))
             FIPS_SELFTEST_PASSED in
  let stack := integrity_value c in
  fips_verify_module_integrity c stack = FIPS_SUCCESS
  /\ fips_verify_module_integrity (set_module_name c (zeros 64)) stack
     = fips_verify_module_integrity c stack.
Proof.
  cbv zeta. split.
  - apply (proj1 (integrity_check_ignores_module_data _ _)).
    split; reflexivity.
  - apply (proj2 (proj2 (integrity_check_ignores_module_data _ _)));
      reflexivity.
Defined.

(** X20, instance: a context marked as passed whose name array holds 64
    letters and no NUL. *)
Lemma module_info_strings_are_terminated_witness :
  let c := set_module_name
             (set_selftest_status (snd (fips_provider_init fips_zeroed_context))
                FIPS_SELFTEST_PASSED)
             (repeat 65 64) in
  let info := {| info_module_id := zeros 16; info_module_version := zeros 4;
                 info_module_name := zeros 64;
                 info_certificate_number := zeros 32;
                 info_integrity_value := zeros 32 |} in
  let info' := snd (fips_get_module_info c info) in
  fst (fips_get_module_info c info) = FIPS_SUCCESS
  /\ length (info_module_name info') = 64%nat
  /\ nth 63 (info_module_name info') 1 = 0
  /\ c_str (info_module_name info') = firstn 63 (c_str (module_name c))
  /\ length (info_certificate_number info') = 32%nat
  /\ nth 31 (info_certificate_number info') 1 = 0
  /\ c_str (info_certificate_number info')
     = firstn 31 (c_str (certificate_number c)).
Proof.
  cbv zeta.
  apply (proj1 (module_info_strings_are_terminated _ _)).
  reflexivity.
Defined.

(** X21, instance: a listed name, and the same name in lower case. *)
Lemma algorithm_approved_iff_listed_witness :
  fips_is_algorithm_approved "AES-256-CBC" = FIPS_SUCCESS
  /\ fips_is_algorithm_approved "aes-256-cbc"
     = FIPS_ERROR_ALGORITHM_NOT_APPROVED.
Proof.
  split.
  - apply (proj1 (algorithm_approved_iff_listed "AES-256-CBC")).
    cbn. tauto.
  - apply (proj1 (proj2 (algorithm_approved_iff_listed "aes-256-cbc"))).
    cbn. intro H.
    repeat (destruct H as [H | H]; [discriminate H |]). exact H.
Defined.

(** X22, instance: a context marked as passed. *)
Lemma continuous_selftest_never_fails_witness :
  let c := set_selftest_status (snd (fips_provider_init fips_zeroed_context))
             FIPS_SELFTEST_PASSED in
  fips_run_continuous_selftest c
  = (FIPS_SUCCESS, set_conditional_selftest_passed c 1).
Proof.
  cbv zeta.
  apply (proj1 (proj2 (continuous_selftest_never_fails _))).
  reflexivity.
Defined.

(** X23, instance: an unknown command. *)
Lemma cli_exit_code_witness :
  exit_code (openssl_cli_main "openssl" 0 (only_command "dgst")) = 1.
Proof.
  apply (proj1 (proj2 (proj2 (cli_exit_code "openssl" 0 (only_command "dgst"))))).
  right. split; [reflexivity |].
  exists "dgst"%string. split; [reflexivity |].
  cbn. intro H.
  repeat (destruct H as [H | H]; [discriminate H |]). exact H.
Defined.

(** X24, instance: [x509]. *)
Lemma key_commands_run_the_rsa_handler_witness :
  openssl_cli_main "openssl" 0 (with_command (only_command "enc") "x509")
  = openssl_cli_main "openssl" 0 (with_command (only_command "enc") "genrsa")
  /\ (help (only_command "enc") = 0 ->
      openssl_cli_main "openssl" 0 (with_command (only_command "enc") "x509")
      = {| exit_code := 0;
           stdout := snd (handle_genrsa_command (only_command "enc"));
           stderr := [] |}).
Proof.
  apply key_commands_run_the_rsa_handler.
  cbn. tauto.
Defined.
